(** * docker_netpol_heps.py: Docker network policy host endpoints

    A shallow embedding of
    [ansible/roles/setup_root_stack/files/docker_netpol_heps.py]: the
    discovery of Docker networks carrying [netpol.*] labels, the derivation
    of one Calico HostEndpoint manifest per network, and the apply / listing
    driver of [main].

    Conventions.
    - A Python [str] is a [string] holding its UTF-8 encoding.
    - The external programs ([docker], the apply helper) and the file system
      are an injected [world]; the script is a function of it.
    - Everything the script does to the outside (printing, writing a file,
      submitting a manifest) is recorded, in order, in a list of [event]s. *)

From Stdlib Require Import String Ascii List Bool Arith NArith ZArith Lia.
From Stdlib Require Import DecimalString.
Import ListNotations.

Local Open Scope list_scope.
Local Open Scope string_scope.

Set Warnings "-register-all".

(** ** Python strings *)

Module PyStr.

Definition LF : string := String "010"%char EmptyString.
Definition DQUOTE : string := String "034"%char EmptyString.
Definition BACKSLASH : string := String "092"%char EmptyString.

(** Truthiness of a [str]: only the empty one is falsy. *)
Definition truthy (s : string) : bool :=
  match s with EmptyString => false | String _ _ => true end.

(** [sep.join(parts)]. *)
Fixpoint join (sep : string) (parts : list string) : string :=
  match parts with
  | [] => EmptyString
  | [p] => p
  | p :: rest => p ++ sep ++ join sep rest
  end.

(** [s.split('\n')]: always at least one piece. *)
Fixpoint split_lines (s : string) : list string :=
  match s with
  | EmptyString => [EmptyString]
  | String c rest =>
      if Ascii.eqb c "010"%char then EmptyString :: split_lines rest
      else match split_lines rest with
           | [] => [String c EmptyString]
           | piece :: pieces => String c piece :: pieces
           end
  end.

(** Code points of a UTF-8 encoded string.  A byte that does not start a
    complete sequence (which no [str] contains) is kept as it is. *)
Fixpoint code_points (s : string) : list N :=
  match s with
  | EmptyString => []
  | String b0 s1 =>
      let n0 := N_of_ascii b0 in
      let cont b := N.land (N_of_ascii b) 63 in
      if (n0 <? 192)%N then n0 :: code_points s1
      else if (n0 <? 224)%N then
        match s1 with
        | String b1 s2 =>
            (N.shiftl (N.land n0 31) 6 + cont b1)%N :: code_points s2
        | _ => n0 :: code_points s1
        end
      else if (n0 <? 240)%N then
        match s1 with
        | String b1 (String b2 s3) =>
            (N.shiftl (N.land n0 15) 12 + N.shiftl (cont b1) 6 + cont b2)%N
              :: code_points s3
        | _ => n0 :: code_points s1
        end
      else
        match s1 with
        | String b1 (String b2 (String b3 s4)) =>
            (N.shiftl (N.land n0 7) 18 + N.shiftl (cont b1) 12
             + N.shiftl (cont b2) 6 + cont b3)%N :: code_points s4
        | _ => n0 :: code_points s1
        end
  end.

Definition byte (n : N) : string := String (ascii_of_N n) EmptyString.

(** UTF-8 encoding of one code point. *)
Definition encode_code_point (c : N) : string :=
  let cont n := byte (128 + N.land n 63) in
  if (c <? 128)%N then byte c
  else if (c <? 2048)%N then byte (192 + N.shiftr c 6) ++ cont c
  else if (c <? 65536)%N then
    byte (224 + N.shiftr c 12) ++ cont (N.shiftr c 6) ++ cont c
  else
    byte (240 + N.shiftr c 18) ++ cont (N.shiftr c 12)
      ++ cont (N.shiftr c 6) ++ cont c.

Definition of_code_points (cs : list N) : string :=
  String.concat EmptyString (map encode_code_point cs).

(** The characters [str.strip()] removes: Python's [str.isspace]. *)
Definition isspace (c : N) : bool :=
  ((9 <=? c) && (c <=? 13) || (28 <=? c) && (c <=? 32)
   || (c =? 133) || (c =? 160) || (c =? 5760)
   || (8192 <=? c) && (c <=? 8202)
   || (c =? 8232) || (c =? 8233) || (c =? 8239) || (c =? 8287)
   || (c =? 12288))%N.

Fixpoint drop_space (cs : list N) : list N :=
  match cs with
  | c :: rest => if isspace c then drop_space rest else cs
  | [] => []
  end.

(** [s.strip()]. *)
Definition strip (s : string) : string :=
  of_code_points (rev (drop_space (rev (drop_space (code_points s))))).

(** [str(n)] for a non-negative [int]. *)
Definition of_nat (n : nat) : string := NilZero.string_of_uint (Nat.to_uint n).

End PyStr.

(** ** JSON documents and [json.dumps] *)

(** The values the script builds and serialises: strings, lists and dicts
    (a dict keeps its insertion order, which [json.dumps] follows). *)
Inductive json : Type :=
| JStr (s : string)
| JArr (items : list json)
| JObj (members : list (string * json)).

Module Json.

(** [d[k]] / [d.get(k)] on a dict; [None] when [d] has no key [k] (or is
    not a dict). *)
Fixpoint assoc (k : string) (members : list (string * json)) : option json :=
  match members with
  | [] => None
  | (k', v) :: rest => if String.eqb k k' then Some v else assoc k rest
  end.

Definition get (k : string) (v : json) : option json :=
  match v with JObj members => assoc k members | _ => None end.

(** [v[k1][k2]...] *)
Fixpoint path (ks : list string) (v : json) : option json :=
  match ks with
  | [] => Some v
  | k :: rest => match get k v with Some v' => path rest v' | None => None end
  end.

(** [list(v.keys())] *)
Definition keys (v : json) : list string :=
  match v with JObj members => map fst members | _ => [] end.

Definition hex_digit (n : N) : string :=
  match String.get (N.to_nat n) "0123456789abcdef" with
  | Some c => String c EmptyString
  | None => EmptyString
  end.

(** ['\\u{0:04x}'.format(n)] *)
Definition u_escape (n : N) : string :=
  PyStr.BACKSLASH ++ "u"
    ++ hex_digit (N.shiftr n 12 mod 16) ++ hex_digit (N.shiftr n 8 mod 16)
    ++ hex_digit (N.shiftr n 4 mod 16) ++ hex_digit (n mod 16).

(** One character under [ensure_ascii=True] (the default). *)
Definition escape_code_point (c : N) : string :=
  if (c =? 34)%N then PyStr.BACKSLASH ++ PyStr.DQUOTE
  else if (c =? 92)%N then PyStr.BACKSLASH ++ PyStr.BACKSLASH
  else if (c =? 10)%N then PyStr.BACKSLASH ++ "n"
  else if (c =? 13)%N then PyStr.BACKSLASH ++ "r"
  else if (c =? 9)%N then PyStr.BACKSLASH ++ "t"
  else if (c =? 8)%N then PyStr.BACKSLASH ++ "b"
  else if (c =? 12)%N then PyStr.BACKSLASH ++ "f"
  else if ((32 <=? c) && (c <=? 126))%N then PyStr.byte c
  else if (c <? 65536)%N then u_escape c
  else
    let v := (c - 65536)%N in
    u_escape (N.lor 55296 (N.land (N.shiftr v 10) 1023))
      ++ u_escape (N.lor 56320 (N.land v 1023)).

Definition encode_string (s : string) : string :=
  PyStr.DQUOTE
    ++ String.concat EmptyString (map escape_code_point (PyStr.code_points s))
    ++ PyStr.DQUOTE.

Fixpoint spaces (n : nat) : string :=
  match n with O => EmptyString | S n' => " " ++ spaces n' end.

Definition newline_indent (indent level : nat) : string :=
  PyStr.LF ++ spaces (indent * level).

(** [json.dumps(v, indent=indent)] below [level] enclosing containers. *)
Fixpoint encode (indent level : nat) (v : json) : string :=
  match v with
  | JStr s => encode_string s
  | JArr [] => "[]"
  | JArr items =>
      "[" ++ newline_indent indent (S level)
        ++ PyStr.join ("," ++ newline_indent indent (S level))
             (map (encode indent (S level)) items)
        ++ newline_indent indent level ++ "]"
  | JObj [] => "{}"
  | JObj members =>
      "{" ++ newline_indent indent (S level)
        ++ PyStr.join ("," ++ newline_indent indent (S level))
             (map (fun kv : string * json =>
                     let (k, x) := kv in
                     encode_string k ++ ": " ++ encode indent (S level) x)
                  members)
        ++ newline_indent indent level ++ "}"
  end.

Definition dumps (indent : nat) (v : json) : string := encode indent 0 v.

End Json.

(** ** Descriptors, the environment and effects *)

(** A JSON object of strings, as [json.loads] builds it: a [dict] from [str]
    to [str] in insertion order. *)
Definition dict : Type := list (string * string).

Module Dict.

Fixpoint lookup (k : string) (d : dict) : option string :=
  match d with
  | [] => None
  | (k', v) :: rest => if String.eqb k k' then Some v else lookup k rest
  end.

(** [d.get(k, default)] *)
Definition get (d : dict) (k default : string) : string :=
  match lookup k d with Some v => v | None => default end.

(** [k in d] *)
Definition contains (k : string) (d : dict) : bool :=
  match lookup k d with Some _ => true | None => false end.

(** Truthiness of a dict: only the empty one is falsy. *)
Definition truthy (d : dict) : bool :=
  match d with [] => false | _ :: _ => true end.

Definition to_json (d : dict) : json :=
  JObj (map (fun kv : string * string => (fst kv, JStr (snd kv))) d).

End Dict.

(** A field of the inspected JSON object that the code reads with
    [network.get(name, {})]: the key can be missing, hold [null], or hold an
    object. *)
Inductive field (A : Type) : Type :=
| Missing
| Null
| Val (a : A).
Arguments Missing {A}.
Arguments Null {A}.
Arguments Val {A} a.

(** One element of the output of [docker network inspect], restricted to what
    the script reads.  Docker always reports [Name], a string; [Labels] and
    [Options] are objects from string to string, or [null]. *)
Record network : Type := {
  Name : string;
  Labels : field dict;
  Options : field dict
}.

(** [network.get(name, {})]: [None] is Python's [None]. *)
Definition network_get (f : field dict) : option dict :=
  match f with
  | Missing => Some []
  | Null => None
  | Val d => Some d
  end.

(** How a [subprocess.run(..., check=True)] call ends. *)
Inductive completed : Type :=
| Succeeded (stdout : string)
| Failed (message stderr : string)
    (* CalledProcessError e, with str(e) and e.stderr *)
| NotRun (message : string).
    (* any other exception e of subprocess.run, with str(e) *)

(** The environment of one invocation: the programs the script starts, the
    file system, and the library functions that are not modelled in detail. *)
Record world : Type := {
  (** [subprocess.run(cmd, input=input, capture_output=True, text=True,
      check=True)] *)
  subprocess_run : list string -> option string -> completed;
  (** [json.loads] on the output of [docker network inspect]: the array of
      descriptors, [None] when the text is not such a document. *)
  json_loads : string -> option (list network);
  (** [yaml.dump(doc, default_flow_style=False)] *)
  yaml_dump : json -> string;
  (** [str(v)] for a value that is not a [str] *)
  repr : json -> string;
  (** whether [os.makedirs(path, exist_ok=True)] succeeds *)
  makedirs_ok : string -> bool;
  (** whether [open(path, 'w')] succeeds *)
  open_ok : string -> bool
}.

Inductive exn : Type :=
| SystemExit (code : Z)
| OSError (message : string)
| ValueError
| IndexError
| KeyError (key : string)
| AttributeError.

Inductive event : Type :=
| Run (cmd : list string) (input : option string)
| Stdout (text : string)
| Stderr (text : string)
| Traceback (e : exn)
| MakeDirs (path : string)
| WriteFile (path content : string).

Inductive result (A : Type) : Type :=
| Ret (a : A)
| Raise (e : exn).
Arguments Ret {A} a.
Arguments Raise {A} e.

(** A computation: the events it causes, in order, and how it ends. *)
Definition M (A : Type) : Type := list event * result A.

Definition ret {A} (a : A) : M A := ([], Ret a).
Definition raise {A} (e : exn) : M A := ([], Raise e).
Definition tell (e : event) : M unit := ([e], Ret tt).

Definition bind {A B} (m : M A) (k : A -> M B) : M B :=
  match m with
  | (t, Ret a) => let (t', r) := k a in ((t ++ t')%list, r)
  | (t, Raise e) => (t, Raise e)
  end.

Notation "x <- m ;; k" := (bind m (fun x => k))
  (at level 61, m at next level, right associativity).
Notation "m ;; k" := (bind m (fun _ => k))
  (at level 61, right associativity).

Definition print (text : string) : M unit := tell (Stdout text).
Definition print_stderr (text : string) : M unit := tell (Stderr text).

(** What an f-string substitutes for a value. *)
Definition format (w : world) (v : json) : string :=
  match v with JStr s => s | _ => repr w v end.

(** [v[k1][k2]...], raising [KeyError] at the first missing key. *)
Fixpoint subscript (v : json) (ks : list string) : M json :=
  match ks with
  | [] => ret v
  | k :: rest =>
      match Json.get k v with
      | Some v' => subscript v' rest
      | None => raise (KeyError k)
      end
  end.

(** [os.path.join(a, b)] on POSIX. *)
Definition os_path_join (a b : string) : string :=
  if String.prefix "/" b then b
  else match a with
       | EmptyString => b
       | _ => if String.eqb (substring (String.length a - 1) 1 a) "/"
              then a ++ b else a ++ "/" ++ b
       end.

(** ** The script *)

Definition docker_network_ls : list string :=
  ["docker"; "network"; "ls"; "--format"; "{{.ID}}"].
Definition docker_network_inspect (net_id : string) : list string :=
  ["docker"; "network"; "inspect"; net_id].
Definition apply_calico_manifests : string :=
  "/usr/local/bin/apply_calico_manifests.sh".

Definition bridge_name_option : string := "com.docker.network.bridge.name".

(** [run_command]: run a command and return its output. *)
Definition run_command (w : world) (cmd : list string) : M string :=
  tell (Run cmd None) ;;
  match subprocess_run w cmd None with
  | Succeeded stdout => ret (PyStr.strip stdout)
  | Failed message _ =>
      print_stderr
        ("Error running command " ++ PyStr.join " " cmd ++ ": " ++ message) ;;
      raise (SystemExit 1)
  | NotRun message => raise (OSError message)
  end.

(** [labels and 'netpol.app' in labels], for [labels = network_data.get('Labels', {})] *)
Definition has_netpol_labels (network_data : network) : bool :=
  match network_get (Labels network_data) with
  | None => false
  | Some labels => Dict.truthy labels && Dict.contains "netpol.app" labels
  end.

(** The loop of [get_docker_networks] over the lines of the listing. *)
Fixpoint inspect_networks (w : world) (net_ids : list string)
    (networks : list network) : M (list network) :=
  match net_ids with
  | [] => ret networks
  | net_id :: rest =>
      if negb (PyStr.truthy net_id) then inspect_networks w rest networks
      else
        inspect_output <- run_command w (docker_network_inspect net_id) ;;
        network_data <-
          match json_loads w inspect_output with
          | None => raise ValueError
          | Some [] => raise IndexError
          | Some (first :: _) => ret first
          end ;;
        if has_netpol_labels network_data
        then inspect_networks w rest (networks ++ [network_data])%list
        else inspect_networks w rest networks
  end.

(** [get_docker_networks]: all Docker networks that carry netpol labels. *)
Definition get_docker_networks (w : world) : M (list network) :=
  network_ids <- run_command w docker_network_ls ;;
  if negb (PyStr.truthy network_ids) then ret []
  else inspect_networks w (PyStr.split_lines network_ids) [].

(** The [hep_manifest] dict literal. *)
Definition hep_manifest
    (bridge_name app_name app_id role_name node_name : string) : json :=
  JObj [
    ("apiVersion", JStr "projectcalico.org/v3");
    ("kind", JStr "HostEndpoint");
    ("metadata", JObj [
       ("name", JStr bridge_name);
       ("labels", JObj [
          ("app", JStr app_name);
          ("app-id", JStr app_id);
          ("role", JStr role_name)
        ])
     ]);
    ("spec", JObj [
       ("node", JStr node_name);
       ("interfaceName", JStr bridge_name)
     ])
  ].

(** The dict [generate_hep_manifest] returns; its keys are fixed. *)
Record hep_data : Type := {
  manifest : json;
  filename : string;
  network_name : string;
  bridge_name : string;
  labels : dict
}.

(** A [hep_data] dict as [json.dumps] sees it. *)
Definition hep_data_json (h : hep_data) : json :=
  JObj [
    ("manifest", manifest h);
    ("filename", JStr (filename h));
    ("network_name", JStr (network_name h));
    ("bridge_name", JStr (bridge_name h));
    ("labels", Dict.to_json (labels h))
  ].

(** [generate_hep_manifest]: the HostEndpoint of a network, or [None]. *)
Definition generate_hep_manifest (network : network) (node_name : string)
    : M (option hep_data) :=
  let labels := network_get (Labels network) in
  let options := network_get (Options network) in
  bridge_name <-
    match options with
    | None => raise AttributeError
    | Some options => ret (Dict.get options bridge_name_option EmptyString)
    end ;;
  if negb (PyStr.truthy bridge_name) then
    print_stderr
      ("Warning: No bridge name found for network " ++ Name network) ;;
    ret None
  else
    match labels with
    | None => raise AttributeError
    | Some labels =>
        let app_name := Dict.get labels "netpol.app" "unknown" in
        let app_id := Dict.get labels "netpol.app_id" "unknown" in
        let role_name := Dict.get labels "netpol.role" "unknown" in
        ret (Some {|
          manifest :=
            hep_manifest bridge_name app_name app_id role_name node_name;
          filename := "hep-" ++ app_name ++ "-" ++ role_name ++ ".yaml";
          network_name := Name network;
          bridge_name := bridge_name;
          labels := labels
        |})
    end.

(** [apply_hep_manifest]: submit a manifest through the helper script. *)
Definition apply_hep_manifest (w : world) (manifest : json) (dry_run : bool)
    : M bool :=
  let manifest_yaml := yaml_dump w manifest in
  let cmd :=
    ([apply_calico_manifests] ++ (if dry_run then ["--dry-run"] else []))%list in
  tell (Run cmd (Some manifest_yaml)) ;;
  match subprocess_run w cmd (Some manifest_yaml) with
  | Succeeded _ => ret true
  | Failed _ stderr =>
      print_stderr ("Error applying manifest: " ++ stderr) ;;
      ret false
  | NotRun message =>
      print_stderr ("Unexpected error applying manifest: " ++ message) ;;
      ret false
  end.

(** The parsed command line. *)
Record args : Type := {
  node_name : string;
  apply : bool;
  dry_run : bool;
  output_dir : option string
}.

(** The variables [main] updates in its loop. *)
Record loop_state : Type := {
  heps : list hep_data;
  applied_count : nat;
  failed_count : nat
}.

Definition initial_state : loop_state :=
  {| heps := []; applied_count := 0; failed_count := 0 |}.

(** The [if args.output_dir:] block. *)
Definition write_manifest (w : world) (dir : string) (h : hep_data) : M unit :=
  tell (MakeDirs dir) ;;
  (if makedirs_ok w dir then ret tt else raise (OSError dir)) ;;
  let output_file := os_path_join dir (filename h) in
  (if open_ok w output_file then ret tt else raise (OSError output_file)) ;;
  tell (WriteFile output_file (yaml_dump w (manifest h))) ;;
  print ("Written: " ++ output_file).

(** The [if args.apply:] block inside the loop. *)
Definition apply_one (w : world) (a : args) (network : network) (h : hep_data)
    (st : loop_state) : M loop_state :=
  print ("Applying HostEndpoint for network " ++ Name network ++ " -> "
           ++ bridge_name h) ;;
  ok <- apply_hep_manifest w (manifest h) (dry_run a) ;;
  if ok then
    let st' := {| heps := heps st;
                  applied_count := applied_count st + 1;
                  failed_count := failed_count st |} in
    name <- subscript (manifest h) ["metadata"; "name"] ;;
    (if negb (dry_run a)
     then print ("✓ Applied HostEndpoint " ++ format w name)
     else print ("✓ Dry-run successful for HostEndpoint " ++ format w name)) ;;
    ret st'
  else
    let st' := {| heps := heps st;
                  applied_count := applied_count st;
                  failed_count := failed_count st + 1 |} in
    name <- subscript (manifest h) ["metadata"; "name"] ;;
    print ("✗ Failed to apply HostEndpoint " ++ format w name) ;;
    ret st'.

(** One iteration of [for network in networks]. *)
Definition loop_body (w : world) (a : args) (network : network)
    (st : loop_state) : M loop_state :=
  hep <- generate_hep_manifest network (node_name a) ;;
  match hep with
  | None => ret st
  | Some h =>
      let st := {| heps := (heps st ++ [h])%list;
                   applied_count := applied_count st;
                   failed_count := failed_count st |} in
      match output_dir a with
      | Some dir => if PyStr.truthy dir then write_manifest w dir h else ret tt
      | None => ret tt
      end ;;
      if apply a then apply_one w a network h st else ret st
  end.

Fixpoint for_networks (w : world) (a : args) (networks : list network)
    (st : loop_state) : M loop_state :=
  match networks with
  | [] => ret st
  | network :: rest =>
      st' <- loop_body w a network st ;;
      for_networks w a rest st'
  end.

(** [main], after [parser.parse_args()]. *)
Definition main (w : world) (a : args) : M unit :=
  networks <- get_docker_networks w ;;
  match networks with
  | [] =>
      if apply a then print "No networks with netpol labels found"
      else print "[]"
  | _ :: _ =>
      st <- for_networks w a networks initial_state ;;
      if apply a then
        print (PyStr.LF ++ "Summary: " ++ PyStr.of_nat (applied_count st)
                 ++ " applied, " ++ PyStr.of_nat (failed_count st) ++ " failed") ;;
        if (0 <? failed_count st)%nat then raise (SystemExit 1) else ret tt
      else
        print (Json.dumps 2 (JArr (map hep_data_json (heps st))))
  end.

(** What the caller of the script observes. *)
Record outcome : Type := {
  events : list event;
  exit_code : Z
}.

(** The interpreter running [main()]: [sys.exit(n)] ends the process with
    status [n], any other uncaught exception is reported on the error stream
    and ends it with status 1. *)
Definition script (w : world) (a : args) : outcome :=
  match main w a with
  | (t, Ret _) => {| events := t; exit_code := 0 |}
  | (t, Raise (SystemExit code)) => {| events := t; exit_code := code |}
  | (t, Raise e) => {| events := (t ++ [Traceback e])%list; exit_code := 1 |}
  end.

(** ** Observations on a run *)

Fixpoint stdout_of (t : list event) : list string :=
  match t with
  | [] => []
  | Stdout s :: rest => s :: stdout_of rest
  | _ :: rest => stdout_of rest
  end.

Definition is_diagnostic (e : event) : bool :=
  match e with Stderr _ | Traceback _ => true | _ => false end.

(** An event that hands a manifest, or anything else, to the caller or to
    the policy engine: output on stdout, a file, a submission. *)
Definition is_output (e : event) : bool :=
  match e with
  | Stdout _ | MakeDirs _ | WriteFile _ _ => true
  | Run cmd (Some _) => true
  | _ => false
  end.

(** The documents submitted to the apply helper, in order. *)
Fixpoint submitted (t : list event) : list string :=
  match t with
  | [] => []
  | Run _ (Some doc) :: rest => doc :: submitted rest
  | _ :: rest => submitted rest
  end.

(** The command line of the apply helper. *)
Definition helper_cmd (dry_run : bool) : list string :=
  if dry_run then [apply_calico_manifests; "--dry-run"]
  else [apply_calico_manifests].

(** Whether the apply helper accepts the manifest of [h]. *)
Definition accepted (w : world) (dry_run : bool) (h : hep_data) : bool :=
  match subprocess_run w (helper_cmd dry_run)
          (Some (yaml_dump w (manifest h))) with
  | Succeeded _ => true
  | _ => false
  end.

(** Whether a runtime command ends with status 0. *)
Definition succeeds (w : world) (cmd : list string) : bool :=
  match subprocess_run w cmd None with
  | Succeeded _ => true
  | _ => false
  end.

(** [docker network inspect net_id] succeeds and describes [n]. *)
Definition inspects (w : world) (net_id : string) (n : network) : Prop :=
  exists stdout others,
    subprocess_run w (docker_network_inspect net_id) None = Succeeded stdout
    /\ json_loads w (PyStr.strip stdout) = Some (n :: others).

(** The entries [generate_hep_manifest] yields for a list of networks. *)
Definition derive (node_name : string) (n : network) : list hep_data :=
  match generate_hep_manifest n node_name with
  | (_, Ret (Some h)) => [h]
  | _ => []
  end.

Definition derived (node_name : string) (networks : list network)
    : list hep_data :=
  flat_map (derive node_name) networks.

(** The label map of a descriptor carries the key [netpol.app]. *)
Definition has_marker (n : network) : Prop :=
  exists labels value,
    Labels n = Val labels /\ Dict.lookup "netpol.app" labels = Some value.

(** The driver options of a descriptor carry no bridge name. *)
Definition lacks_bridge_name (n : network) : Prop :=
  Options n = Missing
  \/ exists options,
       Options n = Val options
       /\ Dict.lookup bridge_name_option options = None.

(** Writing the manifest files cannot fail. *)
Definition files_writable (w : world) (a : args) : Prop :=
  forall dir, output_dir a = Some dir ->
    makedirs_ok w dir = true /\ forall path, open_ok w path = true.

Definition warning (n : network) : event :=
  Stderr ("Warning: No bridge name found for network " ++ Name n).

Definition summary (st : loop_state) : string :=
  PyStr.LF ++ "Summary: " ++ PyStr.of_nat (applied_count st)
    ++ " applied, " ++ PyStr.of_nat (failed_count st) ++ " failed".

(** The entry built at the end of [generate_hep_manifest]. *)
Definition entry (n : network) (node_name bridge : string) (labels : dict)
    : hep_data :=
  {| manifest :=
       hep_manifest bridge
         (Dict.get labels "netpol.app" "unknown")
         (Dict.get labels "netpol.app_id" "unknown")
         (Dict.get labels "netpol.role" "unknown") node_name;
     filename :=
       "hep-" ++ Dict.get labels "netpol.app" "unknown" ++ "-"
         ++ Dict.get labels "netpol.role" "unknown" ++ ".yaml";
     network_name := Name n;
     bridge_name := bridge;
     labels := labels |}.

Definition runs (cmds : list (list string)) : list event :=
  map (fun cmd => Run cmd None) cmds.

(** The identifiers [get_docker_networks] inspects, given the output of
    [docker network ls]. *)
Definition network_ids (stdout : string) : list string :=
  filter PyStr.truthy (PyStr.split_lines (PyStr.strip stdout)).

(** What a computation that only queries the runtime leaves behind: the
    commands it ran, all successful but possibly the last one, followed by
    one line on the error stream when it ends with [sys.exit(1)]. *)
Definition query_shape {A} (w : world) (m : M A) : Prop :=
  exists cmds,
    Forall (fun cmd => succeeds w cmd = true) (removelast cmds)
    /\ match snd m with
       | Ret _ =>
           fst m = runs cmds /\ Forall (fun cmd => succeeds w cmd = true) cmds
       | Raise (SystemExit code) =>
           code = 1%Z /\ exists text, fst m = (runs cmds ++ [Stderr text])%list
       | Raise _ => fst m = runs cmds
       end.

(** The label map of a descriptor, if any, lacks the key [netpol.app]. *)
Definition lacks_marker (n : network) : Prop :=
  forall labels, Labels n = Val labels ->
    Dict.lookup "netpol.app" labels = None.

(** The value a descriptor's label map holds under [key], if any. *)
Definition source_label (n : network) (key : string) : option string :=
  match Labels n with
  | Val labels => Dict.lookup key labels
  | _ => None
  end.

(** Two runtimes that answer every query alike. *)
Definition same_runtime (w1 w2 : world) : Prop :=
  (forall cmd, subprocess_run w1 cmd None = subprocess_run w2 cmd None)
  /\ (forall text, json_loads w1 text = json_loads w2 text).

(** An event the loop of [main] can cause under the flags [a]: a submission
    to the apply helper, a directory or file below [--output-dir], a line of
    progress, a line on the error stream. *)
Definition loop_event (a : args) (e : event) : Prop :=
  match e with
  | Run cmd input =>
      apply a = true /\ cmd = helper_cmd (dry_run a) /\ input <> None
  | MakeDirs path => output_dir a = Some path /\ path <> EmptyString
  | WriteFile path _ =>
      exists dir,
        output_dir a = Some dir /\ dir <> EmptyString
        /\ String.prefix dir path = true
  | Stdout _ =>
      apply a = true
      \/ exists dir, output_dir a = Some dir /\ dir <> EmptyString
  | Stderr _ => True
  | Traceback _ => False
  end.

(** An event of the enumeration: a runtime query or a line on the error
    stream. *)
Definition is_query (e : event) : bool :=
  match e with
  | Run _ None | Stderr _ => true
  | _ => false
  end.

(** A directory creation or a file write. *)
Definition is_file_event (e : event) : bool :=
  match e with
  | MakeDirs _ | WriteFile _ _ => true
  | _ => false
  end.

(** The warning of [generate_hep_manifest], for any network. *)
Definition is_warning (e : event) : bool :=
  match e with
  | Stderr text =>
      String.prefix "Warning: No bridge name found for network " text
  | _ => false
  end.

(** The line printed after a manifest file is written. *)
Definition written (dir : string) (h : hep_data) : string :=
  "Written: " ++ os_path_join dir (filename h).

(** A result that is not [sys.exit]. *)
Definition no_exit {A} (r : result A) : Prop :=
  match r with
  | Raise (SystemExit _) => False
  | _ => True
  end.

(** The command line [a] with another [--dry-run] flag. *)
Definition with_dry_run (a : args) (flag : bool) : args :=
  {| node_name := node_name a; apply := apply a; dry_run := flag;
     output_dir := output_dir a |}.

(** ** A small runtime to run the script on *)

Module Demo.

(** Qualifying, with a bridge name. *)
Definition web : network := {|
  Name := "web_net";
  Labels := Val [("netpol.app", "web")];
  Options := Val [(bridge_name_option, "br-aaa")]
|}.

(** Not qualifying: no [netpol.app] label. *)
Definition plain : network := {|
  Name := "bridge";
  Labels := Val [("com.example.owner", "ops")];
  Options := Val [(bridge_name_option, "docker0")]
|}.

(** Qualifying (the marker holds the empty string), without a bridge name. *)
Definition db : network := {|
  Name := "db_net";
  Labels := Val [("netpol.app", EmptyString); ("netpol.role", "db")];
  Options := Val [("com.docker.network.driver.mtu", "1500")]
|}.

(** No label map at all. *)
Definition host : network := {|
  Name := "host";
  Labels := Null;
  Options := Val []
|}.

(** Qualifying, with a bridge name and all three labels. *)
Definition api : network := {|
  Name := "api_net";
  Labels := Val [("netpol.role", "backend"); ("netpol.app", "shop");
                 ("netpol.app_id", "42")];
  Options := Val [(bridge_name_option, "br-bbb")]
|}.

Definition inspected (net_id : string) : option (list network) :=
  if String.eqb net_id "aaa" then Some [web]
  else if String.eqb net_id "bbb" then Some [plain]
  else if String.eqb net_id "ccc" then Some [db]
  else if String.eqb net_id "ddd" then Some [host]
  else if String.eqb net_id "eee" then Some [api]
  else None.

(** The [docker] of the demonstration: it lists [listing], and
    [docker network inspect] of an id other than the five above ends with
    a status other than 0. *)
Definition docker (listing : string) (cmd : list string) : completed :=
  match cmd with
  | ["docker"; "network"; "ls"; _; _] => Succeeded listing
  | ["docker"; "network"; "inspect"; net_id] =>
      match inspected net_id with
      | Some _ => Succeeded (net_id ++ PyStr.LF)
      | None => Failed "Command returned non-zero exit status 1."
                  ("Error: No such network: " ++ net_id)
      end
  | _ => NotRun "No such file or directory"
  end.

(** A runtime around it, whose apply helper rejects the documents for
    which [rejects] holds. *)
Definition runtime (listing : string) (rejects : string -> bool) : world := {|
  subprocess_run cmd input :=
    match input with
    | None => docker listing cmd
    | Some doc =>
        if rejects doc
        then Failed "Command returned non-zero exit status 1." "rejected"
        else Succeeded EmptyString
    end;
  json_loads := inspected;
  yaml_dump := Json.dumps 2;
  repr := Json.dumps 0;
  makedirs_ok _ := true;
  open_ok _ := true
|}.

Definition lines (ids : list string) : string :=
  String.concat EmptyString (map (fun i => i ++ PyStr.LF) ids).

Definition accept_all (doc : string) : bool := false.
Definition reject_all (doc : string) : bool := true.

Definition listing_args : args :=
  {| node_name := "node-1"; apply := false; dry_run := false;
     output_dir := None |}.
Definition apply_args : args :=
  {| node_name := "node-1"; apply := true; dry_run := false;
     output_dir := None |}.

End Demo.


(** ** A second runtime, over any table of networks *)

Module Lab.

(** Qualifying, with [Options: null]. *)
Definition no_options : network := {|
  Name := "legacy_net";
  Labels := Val [("netpol.app", "legacy")];
  Options := Null
|}.

(** The labels of [Demo.api] on another bridge. *)
Definition api_replica : network := {|
  Name := "api_net_2";
  Labels := Val [("netpol.app", "shop"); ("netpol.role", "backend")];
  Options := Val [(bridge_name_option, "br-ccc")]
|}.

Fixpoint find (table : list (string * network)) (net_id : string)
    : option (list network) :=
  match table with
  | [] => None
  | (id, n) :: rest =>
      if String.eqb net_id id then Some [n] else find rest net_id
  end.

(** A runtime whose networks are those of [table], by identifier; its apply
    helper accepts everything and its files can be written. *)
Definition runtime (table : list (string * network)) : world := {|
  subprocess_run cmd input :=
    match input with
    | None =>
        match cmd with
        | ["docker"; "network"; "ls"; _; _] =>
            Succeeded (Demo.lines (map fst table))
        | ["docker"; "network"; "inspect"; net_id] =>
            match find table net_id with
            | Some _ => Succeeded net_id
            | None => Failed "Command returned non-zero exit status 1."
                        ("Error: No such network: " ++ net_id)
            end
        | _ => NotRun "No such file or directory"
        end
    | Some _ => Succeeded EmptyString
    end;
  json_loads := find table;
  yaml_dump := Json.dumps 2;
  repr := Json.dumps 0;
  makedirs_ok _ := true;
  open_ok _ := true
|}.

Definition files_args : args :=
  {| node_name := "node-1"; apply := false; dry_run := false;
     output_dir := Some "/srv/heps" |}.

End Lab.

(** * Properties *)

(** ** The computation monad *)

Lemma bind_Ret {A B} (m : M A) (k : A -> M B) t b :
  bind m k = (t, Ret b) ->
  exists t1 a t2, m = (t1, Ret a) /\ k a = (t2, Ret b) /\ t = (t1 ++ t2)%list.
Proof.
  unfold bind. destruct m as [t1 [a | e]]; [ | discriminate ].
  destruct (k a) as [t2 r] eqn:Hk. intros H. injection H as <- ->.
  now exists t1, a, t2.
Qed.

Lemma bind_of_Ret {A B} (m : M A) (k : A -> M B) t1 a :
  m = (t1, Ret a) ->
  bind m k = ((t1 ++ fst (k a))%list, snd (k a)).
Proof. intros ->. unfold bind. now destruct (k a). Qed.

Lemma bind_of_Raise {A B} (m : M A) (k : A -> M B) t1 e :
  m = (t1, Raise e) -> bind m k = (t1, Raise e).
Proof. now intros ->. Qed.

Lemma bind_tell {B} (e : event) (k : unit -> M B) :
  bind (tell e) k = (e :: fst (k tt), snd (k tt)).
Proof. unfold bind, tell. now destruct (k tt). Qed.

Lemma bind_ret {A B} (a : A) (k : A -> M B) : bind (ret a) k = k a.
Proof. unfold bind, ret. now destruct (k a). Qed.

Lemma bind_silent {A B} (a : A) (k : A -> M B) : bind ([], Ret a) k = k a.
Proof. exact (bind_ret a k). Qed.


(** ** Endpoint derivation *)

Lemma generate_hep_manifest_eq n node :
  generate_hep_manifest n node =
  match network_get (Options n) with
  | None => ([], Raise AttributeError)
  | Some options =>
      let bridge := Dict.get options bridge_name_option EmptyString in
      if PyStr.truthy bridge then
        match network_get (Labels n) with
        | None => ([], Raise AttributeError)
        | Some labels => ([], Ret (Some (entry n node bridge labels)))
        end
      else ([warning n], Ret None)
  end.
Proof.
  unfold generate_hep_manifest.
  destruct (network_get (Options n)) as [options | ]; [ | reflexivity ].
  rewrite bind_ret.
  destruct (PyStr.truthy (Dict.get options bridge_name_option EmptyString));
    cbn [negb]; [ | reflexivity ].
  now destruct (network_get (Labels n)).
Qed.

Lemma truthy_true s : PyStr.truthy s = true <-> s <> EmptyString.
Proof. destruct s; cbn; split; congruence. Qed.

Lemma truthy_false s : PyStr.truthy s = false <-> s = EmptyString.
Proof. destruct s; cbn; split; congruence. Qed.

(** A derivation that yields an entry found a non-empty bridge name in the
    driver options and a label map to read from. *)
Lemma generate_Some n node t h :
  generate_hep_manifest n node = (t, Ret (Some h)) ->
  exists options bridge labels,
    network_get (Options n) = Some options
    /\ Dict.get options bridge_name_option EmptyString = bridge
    /\ bridge <> EmptyString
    /\ network_get (Labels n) = Some labels
    /\ t = [] /\ h = entry n node bridge labels.
Proof.
  rewrite generate_hep_manifest_eq.
  destruct (network_get (Options n)) as [options | ]; [ | discriminate ].
  cbv zeta.
  destruct (PyStr.truthy _) eqn:Hb; [ | discriminate ].
  destruct (network_get (Labels n)) as [labels | ]; [ | discriminate ].
  intros H. injection H as <- <-.
  exists options, (Dict.get options bridge_name_option EmptyString), labels.
  repeat split; try reflexivity. now apply truthy_true.
Qed.

Lemma generate_None n node t :
  generate_hep_manifest n node = (t, Ret None) ->
  t = [warning n]
  /\ exists options,
       network_get (Options n) = Some options
       /\ Dict.get options bridge_name_option EmptyString = EmptyString.
Proof.
  rewrite generate_hep_manifest_eq.
  destruct (network_get (Options n)) as [options | ]; [ | discriminate ].
  cbv zeta.
  destruct (PyStr.truthy _) eqn:Hb.
  - destruct (network_get (Labels n)); discriminate.
  - intros H. injection H as <-. split; [ reflexivity | ].
    exists options. split; [ reflexivity | now apply truthy_false ].
Qed.

(** Without a bridge name the derivation warns and yields nothing. *)
Lemma generate_skip n node options :
  network_get (Options n) = Some options ->
  Dict.get options bridge_name_option EmptyString = EmptyString ->
  generate_hep_manifest n node = ([warning n], Ret None).
Proof.
  intros Ho Hb. rewrite generate_hep_manifest_eq, Ho. cbv zeta. now rewrite Hb.
Qed.

Lemma generate_entry n node options labels :
  network_get (Options n) = Some options ->
  Dict.get options bridge_name_option EmptyString <> EmptyString ->
  network_get (Labels n) = Some labels ->
  generate_hep_manifest n node =
    ([], Ret (Some (entry n node
                      (Dict.get options bridge_name_option EmptyString)
                      labels))).
Proof.
  intros Ho Hb Hl. rewrite generate_hep_manifest_eq, Ho, Hl. cbv zeta.
  apply truthy_true in Hb. now rewrite Hb.
Qed.

(** A derivation never fails on a descriptor whose two maps are not null. *)
Lemma generate_total n node :
  Labels n <> Null -> Options n <> Null ->
  generate_hep_manifest n node = ([warning n], Ret None)
  \/ exists h, generate_hep_manifest n node = ([], Ret (Some h)).
Proof.
  intros Hl Ho. rewrite generate_hep_manifest_eq.
  destruct (Options n) as [ | | options]; try congruence;
    destruct (Labels n) as [ | | labels]; try congruence; cbn;
    try (now left);
    destruct (PyStr.truthy _); eauto.
Qed.

Lemma has_netpol_labels_iff n :
  has_netpol_labels n = true <-> has_marker n.
Proof.
  unfold has_netpol_labels, has_marker, Dict.contains.
  destruct (Labels n) as [ | | labels]; cbn.
  - split; [ discriminate | intros (l & v & H & _); discriminate ].
  - split; [ discriminate | intros (l & v & H & _); discriminate ].
  - split.
    + intros H. apply andb_true_iff in H as [_ H].
      destruct (Dict.lookup "netpol.app" labels) as [v | ] eqn:E;
        [ | discriminate ].
      now exists labels, v.
    + intros (l & v & Hl & Hv). injection Hl as <-.
      rewrite Hv. destruct labels; [ discriminate | reflexivity ].
Qed.

(** ** The loop of [main] *)

Ltac bind_inv H :=
  let t1 := fresh "t" in
  let x := fresh "x" in
  let t2 := fresh "t" in
  let H1 := fresh "Hm" in
  let H2 := fresh "Hk" in
  apply bind_Ret in H as (t1 & x & t2 & H1 & H2 & ->).

Lemma derive_of_generate n node t r :
  generate_hep_manifest n node = (t, Ret r) ->
  derive node n = match r with Some h => [h] | None => [] end.
Proof. unfold derive. now intros ->. Qed.

Lemma apply_one_heps w a n h st t st' :
  apply_one w a n h st = (t, Ret st') -> heps st' = heps st.
Proof.
  unfold apply_one. intros H. bind_inv H. bind_inv Hk.
  destruct x0; bind_inv Hk0; bind_inv Hk; injection Hk0 as _ <-; reflexivity.
Qed.

Lemma loop_body_heps w a n st t st' :
  loop_body w a n st = (t, Ret st') ->
  heps st' = (heps st ++ derive (node_name a) n)%list.
Proof.
  unfold loop_body. intros H. bind_inv H.
  rewrite (derive_of_generate _ _ _ _ Hm).
  destruct x as [h | ].
  - bind_inv Hk. destruct (apply a).
    + apply apply_one_heps in Hk0. now rewrite Hk0.
    + now injection Hk0 as _ <-.
  - injection Hk as _ <-. now rewrite app_nil_r.
Qed.

(** The entries collected by the loop are those the derivation yields for
    the networks it is given, in their order. *)
Lemma for_networks_heps w a networks : forall st t st',
  for_networks w a networks st = (t, Ret st') ->
  heps st' = (heps st ++ derived (node_name a) networks)%list.
Proof.
  induction networks as [ | n rest IH]; cbn [for_networks]; intros st t st' H.
  - injection H as _ <-. cbn. now rewrite app_nil_r.
  - bind_inv H. apply loop_body_heps in Hm. apply IH in Hk.
    rewrite Hk, Hm. unfold derived. cbn [flat_map]. now rewrite app_assoc.
Qed.

Lemma submitted_app t1 t2 :
  submitted (t1 ++ t2) = (submitted t1 ++ submitted t2)%list.
Proof.
  induction t1 as [ | e t1 IH]; [ reflexivity | ].
  destruct e as [cmd [doc | ] | | | | | ]; cbn; now rewrite ?IH.
Qed.

Lemma stdout_of_app t1 t2 :
  stdout_of (t1 ++ t2) = (stdout_of t1 ++ stdout_of t2)%list.
Proof.
  induction t1 as [ | e t1 IH]; [ reflexivity | ].
  destruct e; cbn; now rewrite ?IH.
Qed.

Lemma write_manifest_ok w dir h :
  makedirs_ok w dir = true -> (forall path, open_ok w path = true) ->
  write_manifest w dir h =
    ([MakeDirs dir;
      WriteFile (os_path_join dir (filename h)) (yaml_dump w (manifest h));
      Stdout ("Written: " ++ os_path_join dir (filename h))], Ret tt).
Proof.
  intros Hd Ho. unfold write_manifest. rewrite Hd, Ho. reflexivity.
Qed.

Lemma apply_hep_manifest_spec w h dry :
  exists diag,
    apply_hep_manifest w (manifest h) dry =
      (Run (helper_cmd dry) (Some (yaml_dump w (manifest h))) :: diag,
       Ret (accepted w dry h))
    /\ submitted diag = [] /\ stdout_of diag = [].
Proof.
  unfold apply_hep_manifest, accepted. cbv zeta.
  replace ([apply_calico_manifests] ++ (if dry then ["--dry-run"] else []))%list
    with (helper_cmd dry) by now destruct dry.
  rewrite bind_tell.
  destruct (subprocess_run w (helper_cmd dry) _) as [out | msg err | msg];
    cbn; eexists; repeat split; reflexivity.
Qed.

(** The apply block on a derived entry: one submission, and one of the two
    counters goes up by one. *)
Lemma apply_one_entry w a n n' node bridge labels st :
  exists t,
    apply_one w a n (entry n' node bridge labels) st =
      (t, Ret {| heps := heps st;
                 applied_count :=
                   applied_count st
                   + (if accepted w (dry_run a) (entry n' node bridge labels)
                      then 1 else 0);
                 failed_count :=
                   failed_count st
                   + (if accepted w (dry_run a) (entry n' node bridge labels)
                      then 0 else 1) |})
    /\ submitted t =
         [yaml_dump w (manifest (entry n' node bridge labels))].
Proof.
  unfold apply_one, print.
  destruct (apply_hep_manifest_spec w (entry n' node bridge labels) (dry_run a))
    as (diag & Happly & Hsub & _).
  rewrite bind_tell, (bind_of_Ret _ _ _ _ Happly).
  destruct (accepted w (dry_run a) _); cbn [fst snd].
  - destruct (dry_run a); cbn;
      (eexists; split;
       [ rewrite Nat.add_0_r; reflexivity
       | cbn [submitted]; rewrite submitted_app, Hsub; reflexivity ]).
  - cbn. eexists; split;
       [ rewrite Nat.add_0_r; reflexivity
       | cbn [submitted]; rewrite submitted_app, Hsub; reflexivity ].
Qed.

Lemma loop_body_skip w a n st t :
  generate_hep_manifest n (node_name a) = (t, Ret None) ->
  loop_body w a n st = ([warning n], Ret st).
Proof.
  intros H. destruct (generate_None _ _ _ H) as [-> _].
  unfold loop_body. now rewrite H.
Qed.

(** When every derivation is skipped, the loop only warns. *)
Lemma for_networks_all_skipped w a networks st :
  Forall (fun n => exists t,
            generate_hep_manifest n (node_name a) = (t, Ret None)) networks ->
  for_networks w a networks st = (map warning networks, Ret st).
Proof.
  induction 1 as [ | n rest [t Hn] _ IH]; [ reflexivity | ].
  cbn [for_networks map].
  now rewrite (bind_of_Ret _ _ _ _ (loop_body_skip w a n st t Hn)), IH.
Qed.

(** One iteration on a descriptor whose maps are not null, with writable
    files: it completes whatever the apply helper answers. *)
Lemma loop_body_total w a n st :
  files_writable w a -> Labels n <> Null -> Options n <> Null ->
  exists t st',
    loop_body w a n st = (t, Ret st')
    /\ heps st' = (heps st ++ derive (node_name a) n)%list
    /\ applied_count st' =
         applied_count st
         + (if apply a
            then length (filter (accepted w (dry_run a))
                           (derive (node_name a) n))
            else 0)
    /\ failed_count st' =
         failed_count st
         + (if apply a
            then length (filter (fun h => negb (accepted w (dry_run a) h))
                           (derive (node_name a) n))
            else 0)
    /\ submitted t =
         (if apply a
          then map (fun h => yaml_dump w (manifest h)) (derive (node_name a) n)
          else [])
    /\ (derive (node_name a) n = [] -> t = [warning n]).
Proof.
  intros Hfiles Hl Ho.
  destruct (generate_total n (node_name a) Hl Ho) as [Hskip | [h Hgen]].
  - exists [warning n], st.
    rewrite (loop_body_skip _ _ _ _ _ Hskip).
    rewrite (derive_of_generate _ _ _ _ Hskip). cbn.
    rewrite app_nil_r. destruct (apply a); rewrite !Nat.add_0_r; repeat split; auto.
  - rewrite (derive_of_generate _ _ _ _ Hgen).
    destruct (generate_Some _ _ _ _ Hgen)
      as (options & bridge & labels & _ & _ & _ & _ & _ & ->).
    unfold loop_body. rewrite Hgen, bind_silent.
    set (st1 := {| heps := _ |}).
    assert (Hwrite : exists tw,
      match output_dir a with
      | Some dir =>
          if PyStr.truthy dir
          then write_manifest w dir (entry n (node_name a) bridge labels)
          else ret tt
      | None => ret tt
      end = (tw, Ret tt) /\ submitted tw = []).
    { destruct (output_dir a) as [dir | ] eqn:Hdir;
        [ | now exists [] ].
      destruct (PyStr.truthy dir); [ | now exists [] ].
      destruct (Hfiles dir Hdir) as [Hd Hop].
      rewrite (write_manifest_ok _ _ _ Hd Hop). eexists. split; reflexivity. }
    destruct Hwrite as (tw & -> & Hsub). cbn [bind].
    destruct (apply a) eqn:Happly.
    + destruct (apply_one_entry w a n n (node_name a) bridge labels st1)
        as (ta & -> & Hsa).
      eexists _, _. split; [ reflexivity | ].
      cbn [heps applied_count failed_count st1 filter map length].
      rewrite submitted_app, Hsub, Hsa.
      destruct (accepted w (dry_run a) _); cbn; repeat split; try lia;
        discriminate.
    + exists (tw ++ [])%list, st1. cbn. rewrite app_nil_r, !Nat.add_0_r.
      repeat split; try assumption. discriminate.
Qed.

(** The whole loop on descriptors whose maps are not null, with writable
    files: every derived manifest is handled, and the counters count the
    accepted and the rejected ones. *)
Lemma for_networks_total w a networks : forall st,
  files_writable w a ->
  Forall (fun n => Labels n <> Null /\ Options n <> Null) networks ->
  exists t st',
    for_networks w a networks st = (t, Ret st')
    /\ heps st' = (heps st ++ derived (node_name a) networks)%list
    /\ applied_count st' =
         applied_count st
         + (if apply a
            then length (filter (accepted w (dry_run a))
                           (derived (node_name a) networks))
            else 0)
    /\ failed_count st' =
         failed_count st
         + (if apply a
            then length (filter (fun h => negb (accepted w (dry_run a) h))
                           (derived (node_name a) networks))
            else 0)
    /\ submitted t =
         (if apply a
          then map (fun h => yaml_dump w (manifest h))
                 (derived (node_name a) networks)
          else [])
    /\ (forall n, In n networks -> derive (node_name a) n = [] ->
        In (warning n) t).
Proof.
  induction networks as [ | n rest IH]; intros st Hfiles Hwf.
  - exists [], st. cbn. rewrite app_nil_r.
    destruct (apply a); rewrite !Nat.add_0_r; repeat split; auto.
    all: intros n [].
  - inversion Hwf as [ | ? ? [Hl Ho] Hrest]; subst.
    destruct (loop_body_total w a n st Hfiles Hl Ho)
      as (t1 & st1 & Hbody & Hh1 & Ha1 & Hf1 & Hs1 & Hw1).
    destruct (IH st1 Hfiles Hrest)
      as (t2 & st2 & Hloop & Hh2 & Ha2 & Hf2 & Hs2 & Hw2).
    exists (t1 ++ t2)%list, st2. cbn [for_networks].
    rewrite (bind_of_Ret _ _ _ _ Hbody), Hloop. cbn [fst snd].
    unfold derived in *. cbn [flat_map].
    rewrite Hh2, Hh1, Ha2, Ha1, Hf2, Hf1, submitted_app, Hs1, Hs2.
    rewrite !filter_app, !length_app, map_app, app_assoc.
    repeat split; try (destruct (apply a); (reflexivity || lia)).
    intros n' [<- | Hin] Hd; apply in_or_app.
    + left. rewrite (Hw1 Hd). now left.
    + right. now apply Hw2.
Qed.

(** ** Enumeration *)

Lemma run_command_eq w cmd :
  run_command w cmd =
  match subprocess_run w cmd None with
  | Succeeded stdout => ([Run cmd None], Ret (PyStr.strip stdout))
  | Failed message _ =>
      ([Run cmd None;
        Stderr ("Error running command " ++ PyStr.join " " cmd ++ ": "
                  ++ message)],
       Raise (SystemExit 1))
  | NotRun message => ([Run cmd None], Raise (OSError message))
  end.
Proof.
  unfold run_command. now destruct (subprocess_run w cmd None).
Qed.

Lemma query_shape_ret {A} w (a : A) : query_shape w (ret a).
Proof. exists []. cbn. repeat split; constructor. Qed.

Lemma query_shape_raise {A} w e :
  (forall code, e <> SystemExit code) -> query_shape w (@raise A e).
Proof.
  intros He. exists []. split; [ constructor | ].
  cbn. destruct e; try reflexivity. now destruct (He code).
Qed.

Lemma query_shape_run_command w cmd : query_shape w (run_command w cmd).
Proof.
  rewrite run_command_eq. exists [cmd]. split; [ constructor | ].
  destruct (subprocess_run w cmd None) as [out | msg err | msg] eqn:E; cbn.
  - split; [ reflexivity | ]. constructor; [ | constructor ].
    unfold succeeds. now rewrite E.
  - split; [ reflexivity | ]. now eexists.
  - reflexivity.
Qed.

Lemma removelast_app_all {A} (P : A -> Prop) (l1 l2 : list A) :
  Forall P l1 -> Forall P (removelast l2) -> Forall P (removelast (l1 ++ l2)).
Proof.
  intros H1 H2. destruct l2 as [ | x l2].
  - rewrite app_nil_r. clear H2.
    induction H1 as [ | y l Hy Hl IH]; [ constructor | ].
    destruct l; [ constructor | ]. cbn. constructor; assumption.
  - rewrite removelast_app by discriminate.
    apply Forall_app. now split.
Qed.

Lemma query_shape_bind {A B} w (m : M A) (k : A -> M B) :
  query_shape w m -> (forall a, query_shape w (k a)) ->
  query_shape w (bind m k).
Proof.
  intros (c1 & H1 & Hm) Hk. destruct m as [t1 [a | e]]; cbn in Hm.
  - destruct Hm as [-> Hall]. destruct (Hk a) as (c2 & H2 & Hka).
    exists (c1 ++ c2)%list.
    split; [ now apply removelast_app_all | ].
    unfold bind. destruct (k a) as [t2 r]. cbn in *.
    unfold runs in *. rewrite map_app.
    destruct r as [b | e].
    + destruct Hka as [-> Hall2]. split; [ reflexivity | ].
      apply Forall_app. now split.
    + destruct e; try (now rewrite Hka).
      destruct Hka as [-> [text ->]]. split; [ reflexivity | ].
      exists text. now rewrite app_assoc.
  - exists c1. split; [ assumption | ]. exact Hm.
Qed.

Lemma query_shape_inspect_networks w net_ids : forall networks,
  query_shape w (inspect_networks w net_ids networks).
Proof.
  induction net_ids as [ | net_id rest IH]; intros networks;
    cbn [inspect_networks].
  - apply query_shape_ret.
  - destruct (negb (PyStr.truthy net_id)); [ apply IH | ].
    apply query_shape_bind; [ apply query_shape_run_command | ].
    intros out. apply query_shape_bind.
    + destruct (json_loads w out) as [[ | first others] | ].
      * now apply query_shape_raise.
      * apply query_shape_ret.
      * now apply query_shape_raise.
    + intros n. destruct (has_netpol_labels n); apply IH.
Qed.

Lemma query_shape_get_docker_networks w :
  query_shape w (get_docker_networks w).
Proof.
  unfold get_docker_networks.
  apply query_shape_bind; [ apply query_shape_run_command | ].
  intros out. destruct (negb (PyStr.truthy out)).
  - apply query_shape_ret.
  - apply query_shape_inspect_networks.
Qed.

(** The networks the inspection loop returns: those already collected, then
    the inspected ones that carry the marker, in the order of the listing. *)
Lemma inspect_networks_Ret w net_ids : forall networks t result,
  inspect_networks w net_ids networks = (t, Ret result) ->
  exists seen,
    Forall2 (inspects w) (filter PyStr.truthy net_ids) seen
    /\ result = (networks ++ filter has_netpol_labels seen)%list.
Proof.
  induction net_ids as [ | net_id rest IH]; intros networks t result H;
    cbn [inspect_networks] in H.
  - injection H as _ <-. exists []. cbn. split; [ constructor | ].
    now rewrite app_nil_r.
  - cbn [filter]. destruct (PyStr.truthy net_id); cbn [negb] in H.
    + bind_inv H. bind_inv Hk.
      rewrite run_command_eq in Hm.
      destruct (subprocess_run w (docker_network_inspect net_id) None)
        as [out | ? ? | ?] eqn:Hrun; try discriminate.
      injection Hm as _ <-.
      destruct (json_loads w (PyStr.strip out)) as [[ | first others] | ] eqn:Hj;
        try discriminate.
      injection Hm0 as _ <-.
      assert (Hi : inspects w net_id first) by (now exists out, others).
      destruct (has_netpol_labels first) eqn:Hq;
        apply IH in Hk0 as (seen & Hseen & ->);
        exists (first :: seen); (split; [ now constructor | ]);
        cbn [filter]; rewrite Hq; [ | reflexivity ].
      now rewrite <- app_assoc.
    + now apply IH in H.
Qed.

Lemma get_docker_networks_Ret w t networks :
  get_docker_networks w = (t, Ret networks) ->
  exists stdout seen,
    subprocess_run w docker_network_ls None = Succeeded stdout
    /\ Forall2 (inspects w) (network_ids stdout) seen
    /\ networks = filter has_netpol_labels seen.
Proof.
  unfold get_docker_networks. intros H. bind_inv H.
  rewrite run_command_eq in Hm.
  destruct (subprocess_run w docker_network_ls None) as [out | ? ? | ?];
    try discriminate.
  injection Hm as _ <-. exists out. unfold network_ids.
  destruct (PyStr.truthy (PyStr.strip out)) eqn:Ht; cbn [negb] in Hk.
  - apply inspect_networks_Ret in Hk as (seen & Hseen & ->). now exists seen.
  - injection Hk as _ <-. apply truthy_false in Ht. rewrite Ht.
    exists []. repeat split; constructor.
Qed.

Lemma get_docker_networks_qualify w t networks :
  get_docker_networks w = (t, Ret networks) ->
  Forall (fun n => has_netpol_labels n = true) networks.
Proof.
  intros H. apply get_docker_networks_Ret in H as (out & seen & _ & _ & ->).
  apply Forall_forall. intros n Hn. now apply filter_In in Hn.
Qed.

(** A command that does not end with status 0 ends the enumeration. *)
Lemma inspect_networks_fails w net_ids : forall networks net_id,
  In net_id net_ids -> net_id <> EmptyString ->
  succeeds w (docker_network_inspect net_id) = false ->
  exists t e, inspect_networks w net_ids networks = (t, Raise e).
Proof.
  induction net_ids as [ | id rest IH]; intros networks net_id Hin Hne Hfail;
    [ destruct Hin | ].
  cbn [inspect_networks].
  destruct (PyStr.truthy id) eqn:Ht; cbn [negb].
  - rewrite run_command_eq.
    destruct (subprocess_run w (docker_network_inspect id) None)
      as [out | ? ? | ?] eqn:Hrun; try (cbn; now eauto).
    assert (Hrest : In net_id rest).
    { destruct Hin as [-> | Hin]; [ | assumption ].
      unfold succeeds in Hfail. now rewrite Hrun in Hfail. }
    rewrite bind_of_Ret with (t1 := [Run (docker_network_inspect id) None])
                             (a := PyStr.strip out) by reflexivity.
    destruct (json_loads w (PyStr.strip out)) as [[ | first others] | ];
      try (cbn; now eauto).
    rewrite bind_ret.
    destruct (has_netpol_labels first);
      [ destruct (IH (networks ++ [first])%list net_id Hrest Hne Hfail)
          as (t & e & ->)
      | destruct (IH networks net_id Hrest Hne Hfail) as (t & e & ->) ];
      cbn; eauto.
  - destruct Hin as [-> | Hin]; [ | now apply IH with net_id ].
    apply truthy_false in Ht. contradiction.
Qed.

(** * The claims *)

Lemma lacks_marker_not_qualifying n :
  lacks_marker n -> has_netpol_labels n = false.
Proof.
  intros H. destruct (has_netpol_labels n) eqn:E; [ | reflexivity ].
  apply has_netpol_labels_iff in E as (labels & value & Hl & Hv).
  rewrite (H labels Hl) in Hv. discriminate.
Qed.

Lemma in_derive n node h :
  In h (derive node n) ->
  exists bridge labels,
    network_get (Labels n) = Some labels /\ h = entry n node bridge labels.
Proof.
  unfold derive.
  destruct (generate_hep_manifest n node) as [t [[h' | ] | e]] eqn:E;
    cbn [In]; try tauto.
  intros [<- | []].
  destruct (generate_Some _ _ _ _ E)
    as (options & bridge & labels & _ & _ & _ & Hl & _ & ->).
  now exists bridge, labels.
Qed.

(** C1. Filter completeness.  The filter predicate holds exactly when the
    label map carries the key [netpol.app], whatever the value under it (the
    empty string included); the enumeration returns exactly the inspected
    networks on which it holds; and for a network whose labels lack the key,
    the pipeline hands it to no derivation and collects no entry derived
    from it. *)
Theorem filter_completeness :
  (forall n,
     has_netpol_labels n = true <->
     exists labels value,
       Labels n = Val labels /\ Dict.lookup "netpol.app" labels = Some value)
  /\ (forall name labels options,
        Dict.lookup "netpol.app" labels = Some EmptyString ->
        has_netpol_labels
          {| Name := name; Labels := Val labels; Options := options |} = true)
  /\ (forall w a t1 t2 networks st n,
        get_docker_networks w = (t1, Ret networks) ->
        for_networks w a networks initial_state = (t2, Ret st) ->
        lacks_marker n ->
        (exists stdout seen,
           subprocess_run w docker_network_ls None = Succeeded stdout
           /\ Forall2 (inspects w) (network_ids stdout) seen
           /\ networks = filter has_netpol_labels seen)
        /\ ~ In n networks
        /\ forall h, In h (heps st) -> ~ In h (derive (node_name a) n)).
Proof.
  split; [ exact has_netpol_labels_iff | ].
  split.
  { intros name labels options H. apply has_netpol_labels_iff.
    now exists labels, EmptyString. }
  intros w a t1 t2 networks st n Hget Hloop Hlack.
  pose proof (lacks_marker_not_qualifying n Hlack) as Hnq.
  pose proof (get_docker_networks_qualify _ _ _ Hget) as Hq.
  rewrite Forall_forall in Hq.
  split; [ now apply get_docker_networks_Ret with t1 | ].
  split.
  - intros Hin. apply Hq in Hin. congruence.
  - intros h Hh Hn.
    apply for_networks_heps in Hloop. cbn in Hloop. rewrite Hloop in Hh.
    apply in_flat_map in Hh as (n' & Hn' & Hh).
    apply in_derive in Hh as (b' & l' & Hl' & ->).
    apply in_derive in Hn as (b & l & Hl & Heq).
    apply Hq, has_netpol_labels_iff in Hn' as (labels & value & HL & Hv).
    rewrite HL in Hl'. injection Hl' as <-.
    assert (l = labels) by (now inversion Heq). subst l.
    unfold lacks_marker in Hlack. unfold network_get in Hl.
    destruct (Labels n) as [ | | ln]; try discriminate.
    + injection Hl as <-. discriminate.
    + injection Hl as ->. rewrite (Hlack labels eq_refl) in Hv. discriminate.
Qed.

(** C2. Independent label fallbacks.  For a descriptor whose driver options
    hold a non-empty bridge name (and whose [Labels] field is a map or is
    missing), the derivation yields exactly one entry, without a warning, and
    each of the manifest labels [app], [app-id] and [role] is the value of its
    own source label [netpol.app], [netpol.app_id], [netpol.role] when that
    label is present and ["unknown"] when it is absent, whatever the other
    two are. *)
Theorem derivation_defaults n node options bridge :
  Options n = Val options ->
  Dict.lookup bridge_name_option options = Some bridge ->
  bridge <> EmptyString ->
  Labels n <> Null ->
  exists h,
    generate_hep_manifest n node = ([], Ret (Some h))
    /\ derive node n = [h]
    /\ forall key field,
         In (key, field)
            [("netpol.app", "app"); ("netpol.app_id", "app-id");
             ("netpol.role", "role")] ->
         (source_label n key = None ->
          Json.path ["metadata"; "labels"; field] (manifest h)
            = Some (JStr "unknown"))
         /\ (forall value, source_label n key = Some value ->
             Json.path ["metadata"; "labels"; field] (manifest h)
               = Some (JStr value)).
Proof.
  intros Ho Hb Hne Hl.
  assert (Hlabels : exists labels,
            network_get (Labels n) = Some labels
            /\ forall key, source_label n key = Dict.lookup key labels).
  { unfold source_label. destruct (Labels n) as [ | | labels].
    - now exists [].
    - congruence.
    - now exists labels. }
  destruct Hlabels as (labels & Hget & Hsrc).
  assert (Hbridge : Dict.get options bridge_name_option EmptyString = bridge)
    by (unfold Dict.get; now rewrite Hb).
  assert (Hgen := generate_entry n node options labels).
  rewrite Ho, Hbridge in Hgen. specialize (Hgen eq_refl Hne Hget).
  exists (entry n node bridge labels).
  split; [ exact Hgen | ].
  split; [ unfold derive; now rewrite Hgen | ].
  intros key field Hin. rewrite Hsrc.
  cbn in Hin.
  destruct Hin as [H | [H | [H | []]]]; injection H as <- <-;
    (split; [ intros E | intros value E ]);
    unfold entry, hep_manifest, Dict.get; cbn [manifest];
    rewrite E; reflexivity.
Qed.

Lemma options_of_bridge n options bridge :
  network_get (Options n) = Some options ->
  Dict.get options bridge_name_option EmptyString = bridge ->
  bridge <> EmptyString ->
  Options n = Val options
  /\ Dict.lookup bridge_name_option options = Some bridge.
Proof.
  unfold network_get, Dict.get. intros Ho Hb Hne.
  destruct (Options n) as [ | | o]; try discriminate;
    injection Ho as <-.
  - cbn in Hb. congruence.
  - split; [ reflexivity | ].
    destruct (Dict.lookup bridge_name_option o); congruence.
Qed.

(** C6. Manifest shape.  Every derived manifest is the document
    [apiVersion], [kind], [metadata] with [name] and [labels] of [app],
    [app-id], [role], and [spec] with [node] and [interfaceName], in those
    names and that nesting; [metadata.name] and [spec.interfaceName] are the
    bridge name found in the driver options, verbatim, and [spec.node] is the
    node name given to the derivation. *)
Theorem manifest_shape n node t h :
  generate_hep_manifest n node = (t, Ret (Some h)) ->
  exists options bridge app app_id role,
    Options n = Val options
    /\ Dict.lookup bridge_name_option options = Some bridge
    /\ manifest h =
         JObj [
           ("apiVersion", JStr "projectcalico.org/v3");
           ("kind", JStr "HostEndpoint");
           ("metadata", JObj [
              ("name", JStr bridge);
              ("labels", JObj [
                 ("app", JStr app);
                 ("app-id", JStr app_id);
                 ("role", JStr role)
               ])
            ]);
           ("spec", JObj [
              ("node", JStr node);
              ("interfaceName", JStr bridge)
            ])
         ]
    /\ Json.path ["metadata"; "name"] (manifest h) = Some (JStr bridge)
    /\ Json.path ["spec"; "interfaceName"] (manifest h) = Some (JStr bridge)
    /\ Json.path ["spec"; "node"] (manifest h) = Some (JStr node).
Proof.
  intros H.
  destruct (generate_Some _ _ _ _ H)
    as (options & bridge & labels & Ho & Hb & Hne & _ & _ & ->).
  destruct (options_of_bridge _ _ _ Ho Hb Hne) as [HO HB].
  exists options, bridge,
    (Dict.get labels "netpol.app" "unknown"),
    (Dict.get labels "netpol.app_id" "unknown"),
    (Dict.get labels "netpol.role" "unknown").
  repeat split; assumption || reflexivity.
Qed.

Lemma main_eq w a t1 networks :
  get_docker_networks w = (t1, Ret networks) ->
  main w a =
  match networks with
  | [] =>
      ((t1 ++ [Stdout (if apply a
                       then "No networks with netpol labels found"
                       else "[]")])%list, Ret tt)
  | _ :: _ =>
      match for_networks w a networks initial_state with
      | (t2, Ret st) =>
          if apply a then
            ((t1 ++ t2 ++ [Stdout (summary st)])%list,
             if (0 <? failed_count st)%nat
             then Raise (SystemExit 1) else Ret tt)
          else
            ((t1 ++ t2
               ++ [Stdout (Json.dumps 2 (JArr (map hep_data_json (heps st))))])
             %list, Ret tt)
      | (t2, Raise e) => ((t1 ++ t2)%list, Raise e)
      end
  end.
Proof.
  intros Hget. unfold main. rewrite (bind_of_Ret _ _ _ _ Hget).
  destruct networks as [ | n rest].
  - now destruct (apply a).
  - destruct (for_networks w a (n :: rest) initial_state) as [t2 [st | e]];
      [ | reflexivity ].
    destruct (apply a); [ destruct (0 <? failed_count st)%nat eqn:E | ];
      cbv beta iota delta [bind print tell fst snd ret raise summary];
      rewrite ?E; reflexivity.
Qed.

(** C9. Listing entries.  In listing mode the script ends by printing the
    JSON array of the collected entries, and each entry is the object of
    exactly [manifest], [filename], [network_name], [bridge_name] and
    [labels]: the manifest; the file name [hep-{app}-{role}.yaml] built from
    the [app] and [role] values of that manifest (defaults included); the name
    of the originating network; its bridge name; and the label map of the
    network as the runtime reported it, not the defaulted values. *)
Theorem listing_entries w a t1 t2 networks st :
  apply a = false ->
  get_docker_networks w = (t1, Ret networks) ->
  for_networks w a networks initial_state = (t2, Ret st) ->
  events (script w a) =
    (t1 ++ t2
      ++ [Stdout (Json.dumps 2 (JArr (map hep_data_json (heps st))))])%list
  /\ Forall
       (fun h =>
          exists n raw options bridge app role,
            In n networks
            /\ Labels n = Val raw
            /\ Options n = Val options
            /\ Dict.lookup bridge_name_option options = Some bridge
            /\ Json.path ["metadata"; "labels"; "app"] (manifest h)
                 = Some (JStr app)
            /\ Json.path ["metadata"; "labels"; "role"] (manifest h)
                 = Some (JStr role)
            /\ hep_data_json h =
                 JObj [
                   ("manifest", manifest h);
                   ("filename", JStr ("hep-" ++ app ++ "-" ++ role ++ ".yaml"));
                   ("network_name", JStr (Name n));
                   ("bridge_name", JStr bridge);
                   ("labels", Dict.to_json raw)
                 ])
       (heps st).
Proof.
  intros Happly Hget Hloop. split.
  - unfold script. rewrite (main_eq _ _ _ _ Hget), Happly.
    destruct networks as [ | n rest].
    + cbn in Hloop. injection Hloop as <- <-. reflexivity.
    + now rewrite Hloop.
  - pose proof (get_docker_networks_qualify _ _ _ Hget) as Hq.
    rewrite Forall_forall in Hq.
    apply for_networks_heps in Hloop. cbn in Hloop. rewrite Hloop.
    apply Forall_forall. intros h Hh.
    apply in_flat_map in Hh as (n & Hn & Hh).
    unfold derive in Hh.
    destruct (generate_hep_manifest n (node_name a)) as [t [[h' | ] | e]] eqn:E;
      cbn [In] in Hh; try tauto.
    destruct Hh as [<- | []].
    destruct (generate_Some _ _ _ _ E)
      as (options & bridge & labels & Ho & Hb & Hne & Hl & _ & ->).
    destruct (options_of_bridge _ _ _ Ho Hb Hne) as [HO HB].
    pose proof (Hq _ Hn) as Hm. apply has_netpol_labels_iff in Hm.
    destruct Hm as (raw & value & HL & _).
    rewrite HL in Hl. injection Hl as <-.
    exists n, raw, options, bridge,
      (Dict.get raw "netpol.app" "unknown"),
      (Dict.get raw "netpol.role" "unknown").
    repeat split; assumption || reflexivity.
Qed.

(** C10. Descriptors without a label map, and empty bridge names.  A
    descriptor whose [Labels] field is missing or null does not pass the
    filter, and the enumeration goes on to the next identifier without
    raising; and a descriptor whose bridge name option holds the empty string
    is handled exactly like one without the option: the same warning, no
    entry. *)
Theorem no_label_map_and_empty_bridge_name :
  (forall n, Labels n = Missing \/ Labels n = Null ->
     has_netpol_labels n = false)
  /\ (forall w net_id rest networks n,
        net_id <> EmptyString -> inspects w net_id n ->
        Labels n = Missing \/ Labels n = Null ->
        inspect_networks w (net_id :: rest) networks =
          (Run (docker_network_inspect net_id) None
             :: fst (inspect_networks w rest networks),
           snd (inspect_networks w rest networks)))
  /\ (forall n node options,
        Options n = Val options ->
        Dict.lookup bridge_name_option options = Some EmptyString ->
        generate_hep_manifest n node = ([warning n], Ret None)
        /\ forall n', Name n' = Name n -> lacks_bridge_name n' ->
             generate_hep_manifest n' node = generate_hep_manifest n node).
Proof.
  assert (Hfilter : forall n, Labels n = Missing \/ Labels n = Null ->
                      has_netpol_labels n = false).
  { intros n [H | H]; unfold has_netpol_labels; now rewrite H. }
  split; [ exact Hfilter | ]. split.
  - intros w net_id rest networks n Hne (out & others & Hrun & Hj) Hl.
    cbn [inspect_networks]. apply truthy_true in Hne. rewrite Hne. cbn [negb].
    rewrite run_command_eq, Hrun.
    rewrite bind_of_Ret with (t1 := [Run (docker_network_inspect net_id) None])
                             (a := PyStr.strip out) by reflexivity.
    rewrite Hj, bind_ret, (Hfilter n Hl). reflexivity.
  - intros n node options Ho Hb.
    assert (Hskip : generate_hep_manifest n node = ([warning n], Ret None)).
    { apply generate_skip with options.
      - now rewrite Ho.
      - unfold Dict.get. now rewrite Hb. }
    split; [ exact Hskip | ].
    intros n' Hname Hlack. rewrite Hskip.
    unfold warning. rewrite <- Hname.
    destruct Hlack as [Hm | (o' & Ho' & Hb')].
    + apply generate_skip with []; [ now rewrite Hm | reflexivity ].
    + apply generate_skip with o'; [ now rewrite Ho' | ].
      unfold Dict.get. now rewrite Hb'.
Qed.

Lemma length_filter_pos {A} (f : A -> bool) (l : list A) :
  0 < length (filter f l) <-> exists x, In x l /\ f x = true.
Proof.
  split.
  - destruct (filter f l) as [ | x l'] eqn:E; cbn; [ lia | ]. intros _.
    exists x. apply filter_In. rewrite E. now left.
  - intros (x & Hx). apply filter_In in Hx.
    destruct (filter f l); [ destruct Hx | cbn; lia ].
Qed.

Lemma qualifying_not_null w t networks :
  get_docker_networks w = (t, Ret networks) ->
  Forall (fun n => Labels n <> Null) networks.
Proof.
  intros H. apply get_docker_networks_qualify in H.
  eapply Forall_impl; [ | exact H ].
  intros n Hn. apply has_netpol_labels_iff in Hn as (l & v & -> & _).
  discriminate.
Qed.

Lemma Forall_and_intro {A} (P Q : A -> Prop) l :
  Forall P l -> Forall Q l -> Forall (fun x => P x /\ Q x) l.
Proof.
  intros HP HQ. apply Forall_forall. intros x Hx.
  rewrite Forall_forall in HP, HQ. auto.
Qed.

(** C3. Apply mode.  With at least one qualifying network, an apply run
    submits every derived manifest to the helper, in order, whatever the
    helper answered for the earlier ones; the two counters are the numbers of
    accepted and of rejected manifests of the whole batch; the run ends by
    printing the summary line; and its exit code is 1 exactly when some
    manifest was rejected, 0 otherwise. *)
Theorem apply_mode_accounting w a t1 networks :
  apply a = true ->
  get_docker_networks w = (t1, Ret networks) ->
  networks <> [] ->
  Forall (fun n => Options n <> Null) networks ->
  files_writable w a ->
  exists t2 st,
    for_networks w a networks initial_state = (t2, Ret st)
    /\ heps st = derived (node_name a) networks
    /\ submitted t2 = map (fun h => yaml_dump w (manifest h)) (heps st)
    /\ applied_count st =
         length (filter (accepted w (dry_run a)) (heps st))
    /\ failed_count st =
         length (filter (fun h => negb (accepted w (dry_run a) h)) (heps st))
    /\ applied_count st + failed_count st = length (heps st)
    /\ events (script w a) = (t1 ++ t2 ++ [Stdout (summary st)])%list
    /\ (exit_code (script w a) = 1%Z <->
        exists h, In h (heps st) /\ accepted w (dry_run a) h = false)
    /\ (exit_code (script w a) = 0%Z <->
        forall h, In h (heps st) -> accepted w (dry_run a) h = true).
Proof.
  intros Happly Hget Hne Hopt Hfiles.
  pose proof (Forall_and_intro _ _ _ (qualifying_not_null _ _ _ Hget) Hopt)
    as Hwf.
  destruct (for_networks_total w a networks initial_state Hfiles Hwf)
    as (t2 & st & Hloop & Hh & Ha & Hf & Hs & _).
  rewrite Happly in *. cbn in Hh, Ha, Hf. rewrite <- Hh in *.
  exists t2, st.
  assert (Hscript :
    script w a =
      {| events := (t1 ++ t2 ++ [Stdout (summary st)])%list;
         exit_code := if (0 <? failed_count st)%nat then 1%Z else 0%Z |}).
  { unfold script. rewrite (main_eq _ _ _ _ Hget).
    destruct networks as [ | n rest]; [ congruence | ].
    rewrite Hloop, Happly. now destruct (0 <? failed_count st)%nat. }
  assert (Hfailed : 0 < failed_count st <->
            exists h, In h (heps st) /\ accepted w (dry_run a) h = false).
  { rewrite Hf, length_filter_pos. split; intros (h & Hin & Hh');
      exists h; (split; [ assumption | ]).
    - now apply negb_true_iff in Hh'.
    - now apply negb_true_iff. }
  repeat split; try assumption.
  - rewrite Ha, Hf. clear. induction (heps st) as [ | h l IH]; [ reflexivity | ].
    cbn. destruct (accepted w (dry_run a) h); cbn; lia.
  - now rewrite Hscript.
  - rewrite Hscript. cbn [exit_code]. destruct (Nat.ltb_spec 0 (failed_count st));
      [ intros _; now apply Hfailed | discriminate ].
  - rewrite Hscript. cbn [exit_code]. intros H. apply Hfailed in H.
    destruct (Nat.ltb_spec 0 (failed_count st)); [ reflexivity | lia ].
  - rewrite Hscript. cbn [exit_code]. destruct (Nat.ltb_spec 0 (failed_count st));
      [ discriminate | ].
    intros _ h Hin. destruct (accepted w (dry_run a) h) eqn:E;
      [ reflexivity | ].
    assert (0 < failed_count st) by (apply Hfailed; eauto). lia.
  - rewrite Hscript. cbn [exit_code]. intros Hall.
    destruct (Nat.ltb_spec 0 (failed_count st)) as [Hpos | ]; [ | reflexivity ].
    apply Hfailed in Hpos as (h & Hin & Hrej).
    rewrite (Hall h Hin) in Hrej. discriminate.
Qed.

Lemma enumeration_fails w :
  (succeeds w docker_network_ls = false
   \/ exists stdout net_id,
        subprocess_run w docker_network_ls None = Succeeded stdout
        /\ In net_id (network_ids stdout)
        /\ succeeds w (docker_network_inspect net_id) = false) ->
  exists t e, get_docker_networks w = (t, Raise e).
Proof.
  unfold get_docker_networks. rewrite run_command_eq.
  intros [Hls | (out & net_id & Hls & Hin & Hfail)].
  - unfold succeeds in Hls.
    destruct (subprocess_run w docker_network_ls None);
      [ discriminate | cbn; eauto | cbn; eauto ].
  - rewrite Hls.
    rewrite bind_of_Ret with (t1 := [Run docker_network_ls None])
                             (a := PyStr.strip out) by reflexivity.
    unfold network_ids in Hin. apply filter_In in Hin as [Hin Hne].
    apply truthy_true in Hne.
    destruct (PyStr.truthy (PyStr.strip out)) eqn:Ht; cbn [negb].
    + destruct (inspect_networks_fails w _ [] net_id Hin Hne Hfail)
        as (t & e & ->). cbn. eauto.
    + apply truthy_false in Ht. rewrite Ht in Hin. cbn in Hin.
      destruct Hin as [<- | []]. congruence.
Qed.

Lemma runs_not_output cmds : Forall (fun e => is_output e = false) (runs cmds).
Proof. induction cmds; cbn; constructor; auto. Qed.

(** C4. Fatal runtime errors.  When [docker network ls], or
    [docker network inspect] of one of the listed identifiers, cannot be run
    or ends with a status other than 0, the run consists of the runtime
    commands up to the first one that does not succeed, followed by one
    diagnostic on the error stream; it ends with exit code 1; and it prints
    nothing on standard output, writes no file and submits no manifest. *)
Theorem enumeration_failure_is_fatal w a :
  (succeeds w docker_network_ls = false
   \/ exists stdout net_id,
        subprocess_run w docker_network_ls None = Succeeded stdout
        /\ In net_id (network_ids stdout)
        /\ succeeds w (docker_network_inspect net_id) = false) ->
  exists cmds diagnostic,
    events (script w a) = (runs cmds ++ [diagnostic])%list
    /\ is_diagnostic diagnostic = true
    /\ Forall (fun cmd => succeeds w cmd = true) (removelast cmds)
    /\ exit_code (script w a) = 1%Z
    /\ Forall (fun e => is_output e = false) (events (script w a)).
Proof.
  intros Hfail. destruct (enumeration_fails w Hfail) as (t & e & Hget).
  destruct (query_shape_get_docker_networks w) as (cmds & Hok & Hshape).
  rewrite Hget in Hshape. cbn in Hshape.
  assert (Hmain : main w a = (t, Raise e))
    by (unfold main; now rewrite (bind_of_Raise _ _ _ _ Hget)).
  unfold script. rewrite Hmain.
  assert (Hout : forall d, is_diagnostic d = true ->
            Forall (fun e => is_output e = false) (runs cmds ++ [d])).
  { intros d Hd. apply Forall_app. split; [ apply runs_not_output | ].
    constructor; [ now destruct d | constructor ]. }
  destruct e; cbn [events exit_code].
  1: { destruct Hshape as [-> [text ->]].
       exists cmds, (Stderr text). repeat split; auto. }
  all: rewrite Hshape; eexists cmds, (Traceback _);
    (split; [ reflexivity | ]); (split; [ reflexivity | ]);
    (split; [ assumption | ]); (split; [ reflexivity | now apply Hout ]).
Qed.

Lemma lacks_bridge_name_skip n node :
  lacks_bridge_name n ->
  generate_hep_manifest n node = ([warning n], Ret None).
Proof.
  intros [Hm | (options & Ho & Hb)].
  - apply generate_skip with []; [ now rewrite Hm | reflexivity ].
  - apply generate_skip with options; [ now rewrite Ho | ].
    unfold Dict.get. now rewrite Hb.
Qed.

Lemma filter_none {A} (f : A -> bool) (l : list A) :
  Forall (fun x => f x = false) l -> filter f l = [].
Proof.
  induction 1 as [ | x l Hx _ IH]; [ reflexivity | ]. cbn. now rewrite Hx.
Qed.

(** Skip with a warning, where the code achieves it.  For a qualifying
    network whose [Options] field is missing, or is a map without a bridge
    name, the derivation yields no entry and emits the warning; the loop goes
    on over the remaining networks; and when no [Options] field is null, the
    files can be written and every submitted manifest is accepted, the run
    ends with exit code 0. *)
Theorem missing_bridge_name_is_skipped w a t1 networks n :
  get_docker_networks w = (t1, Ret networks) ->
  In n networks ->
  lacks_bridge_name n ->
  Forall (fun n' => Options n' <> Null) networks ->
  files_writable w a ->
  (apply a = true ->
   Forall (fun h => accepted w (dry_run a) h = true)
     (derived (node_name a) networks)) ->
  generate_hep_manifest n (node_name a) = ([warning n], Ret None)
  /\ derive (node_name a) n = []
  /\ (exists t2 st,
        for_networks w a networks initial_state = (t2, Ret st)
        /\ heps st = derived (node_name a) networks)
  /\ In (warning n) (events (script w a))
  /\ exit_code (script w a) = 0%Z.
Proof.
  intros Hget Hin Hlack Hopt Hfiles Hacc.
  pose proof (lacks_bridge_name_skip n (node_name a) Hlack) as Hskip.
  assert (Hd : derive (node_name a) n = [])
    by (unfold derive; now rewrite Hskip).
  pose proof (Forall_and_intro _ _ _ (qualifying_not_null _ _ _ Hget) Hopt)
    as Hwf.
  destruct (for_networks_total w a networks initial_state Hfiles Hwf)
    as (t2 & st & Hloop & Hh & _ & Hf & _ & Hwarn).
  cbn in Hh.
  assert (Hscript : exists last,
            script w a = {| events := (t1 ++ t2 ++ [last])%list;
                            exit_code := 0 |}).
  { unfold script. rewrite (main_eq _ _ _ _ Hget).
    destruct networks as [ | n0 rest]; [ destruct Hin | ].
    rewrite Hloop. destruct (apply a) eqn:Happly.
    - rewrite filter_none in Hf.
      + cbn in Hf. rewrite Hf. cbn. eauto.
      + eapply Forall_impl; [ | exact (Hacc eq_refl) ].
        cbn. now intros h ->.
    - eauto. }
  destruct Hscript as [last ->].
  repeat split; try assumption.
  - now exists t2, st.
  - cbn. apply in_or_app. right. apply in_or_app. left. now apply Hwarn.
Qed.

(** C5. A missing bridge name is meant to be non-fatal, and is fatal when
    [Options] is null.  The network [legacy_net] qualifies and its descriptor
    carries no bridge name, its [Options] field being [null]: where the same
    descriptor without the [Options] key is skipped with the warning, here
    [network.get('Options', {})] yields [None] and [options.get] raises
    [AttributeError]; no warning is emitted, and the run ends with a
    traceback and exit code 1, not 0. *)
Theorem null_options_are_not_skipped :
  let w := Lab.runtime [("nnn", Lab.no_options)] in
  let sibling := {| Name := Name Lab.no_options;
                    Labels := Labels Lab.no_options;
                    Options := Missing |} in
  has_netpol_labels Lab.no_options = true
  /\ network_get (Options Lab.no_options) = None
  /\ generate_hep_manifest sibling "node-1" = ([warning sibling], Ret None)
  /\ generate_hep_manifest Lab.no_options "node-1"
     = ([], Raise AttributeError)
  /\ get_docker_networks w
     = ([Run docker_network_ls None;
         Run (docker_network_inspect "nnn") None], Ret [Lab.no_options])
  /\ events (script w Demo.listing_args)
     = [Run docker_network_ls None;
        Run (docker_network_inspect "nnn") None;
        Traceback AttributeError]
  /\ ~ In (warning Lab.no_options) (events (script w Demo.listing_args))
  /\ exit_code (script w Demo.listing_args) = 1%Z
  /\ exit_code (script w Demo.apply_args) = 1%Z.
Proof.
  intros w sibling.
  assert (Hevents : events (script w Demo.listing_args)
                    = [Run docker_network_ls None;
                       Run (docker_network_inspect "nnn") None;
                       Traceback AttributeError])
    by (vm_compute; reflexivity).
  repeat split; try (vm_compute; reflexivity); try exact Hevents.
  rewrite Hevents. intros [H | [H | [H | []]]]; discriminate H.
Qed.

Lemma stdout_of_runs cmds : stdout_of (runs cmds) = [].
Proof. induction cmds; cbn; auto. Qed.

Lemma stdout_of_warnings networks : stdout_of (map warning networks) = [].
Proof. induction networks; cbn; auto. Qed.

Lemma enumeration_silent w t networks :
  get_docker_networks w = (t, Ret networks) -> stdout_of t = [].
Proof.
  intros H. destruct (query_shape_get_docker_networks w) as (cmds & _ & Hs).
  rewrite H in Hs. cbn in Hs. destruct Hs as [-> _]. apply stdout_of_runs.
Qed.

(** C7. Empty listing.  In listing mode, when no network qualifies, or when
    every derivation yields nothing, standard output carries exactly one
    document, the JSON serialisation of the empty array, and the run ends
    with exit code 0. *)
Theorem empty_listing w a t1 networks :
  apply a = false ->
  get_docker_networks w = (t1, Ret networks) ->
  Forall (fun n => exists t,
            generate_hep_manifest n (node_name a) = (t, Ret None)) networks ->
  stdout_of (events (script w a)) = [Json.dumps 2 (JArr [])]
  /\ Json.dumps 2 (JArr []) = "[]"
  /\ exit_code (script w a) = 0%Z.
Proof.
  intros Happly Hget Hnone.
  pose proof (enumeration_silent _ _ _ Hget) as Hsilent.
  unfold script. rewrite (main_eq _ _ _ _ Hget), Happly.
  destruct networks as [ | n rest].
  - cbn [events exit_code]. rewrite stdout_of_app, Hsilent. now cbn.
  - rewrite (for_networks_all_skipped w a _ initial_state Hnone).
    cbn [events exit_code].
    rewrite !stdout_of_app, Hsilent, stdout_of_warnings. now cbn.
Qed.

Lemma run_command_ext w1 w2 cmd :
  same_runtime w1 w2 -> run_command w1 cmd = run_command w2 cmd.
Proof. intros [H _]. now rewrite !run_command_eq, H. Qed.

Lemma inspect_networks_ext w1 w2 net_ids :
  same_runtime w1 w2 ->
  forall networks,
    inspect_networks w1 net_ids networks = inspect_networks w2 net_ids networks.
Proof.
  intros Hsame. induction net_ids as [ | net_id rest IH]; intros networks;
    [ reflexivity | ].
  cbn [inspect_networks].
  destruct (negb (PyStr.truthy net_id)); [ apply IH | ].
  rewrite (run_command_ext w1 w2 _ Hsame).
  destruct (run_command w2 (docker_network_inspect net_id)) as [t [out | e]];
    [ | reflexivity ].
  unfold bind at 1 3. destruct Hsame as [_ Hj]. rewrite Hj.
  destruct (json_loads w2 out) as [[ | first others] | ]; try reflexivity.
  rewrite !bind_ret. destruct (has_netpol_labels first); now rewrite IH.
Qed.

Lemma get_docker_networks_ext w1 w2 :
  same_runtime w1 w2 -> get_docker_networks w1 = get_docker_networks w2.
Proof.
  intros Hsame. unfold get_docker_networks.
  rewrite (run_command_ext w1 w2 _ Hsame).
  destruct (run_command w2 docker_network_ls) as [t [out | e]];
    [ | reflexivity ].
  unfold bind. destruct (negb (PyStr.truthy out)); [ reflexivity | ].
  now rewrite (inspect_networks_ext w1 w2 _ Hsame).
Qed.

Lemma for_networks_listing_ext w1 w2 a1 a2 networks :
  node_name a1 = node_name a2 ->
  apply a1 = false -> apply a2 = false ->
  output_dir a1 = None -> output_dir a2 = None ->
  forall st,
    for_networks w1 a1 networks st = for_networks w2 a2 networks st.
Proof.
  intros Hnode Ha1 Ha2 Hd1 Hd2.
  induction networks as [ | n rest IH]; intros st; [ reflexivity | ].
  cbn [for_networks].
  assert (Hbody : loop_body w1 a1 n st = loop_body w2 a2 n st).
  { unfold loop_body. now rewrite Hnode, Ha1, Ha2, Hd1, Hd2. }
  rewrite Hbody. destruct (loop_body w2 a2 n st) as [t [st' | e]];
    [ | reflexivity ].
  unfold bind. now rewrite IH.
Qed.

(** C8. Determinism.  Given the same sequence of network descriptors and
    the same node name, two runs collect identical entries, with identical
    manifests, whatever their other flags and whatever the apply helper and
    the file system do; and against a runtime that answers the same way, two
    runs discover the same networks and two listing runs produce identical
    output. *)
Theorem rerun_is_identical w1 w2 a1 a2 :
  node_name a1 = node_name a2 ->
  (forall networks t2 t2' st1 st2,
     for_networks w1 a1 networks initial_state = (t2, Ret st1) ->
     for_networks w2 a2 networks initial_state = (t2', Ret st2) ->
     heps st1 = heps st2
     /\ map manifest (heps st1) = map manifest (heps st2))
  /\ (same_runtime w1 w2 ->
      get_docker_networks w1 = get_docker_networks w2
      /\ (apply a1 = false -> apply a2 = false ->
          output_dir a1 = None -> output_dir a2 = None ->
          script w1 a1 = script w2 a2)).
Proof.
  intros Hnode. split.
  - intros networks t2 t2' st1 st2 H1 H2.
    apply for_networks_heps in H1, H2. rewrite Hnode in H1.
    assert (heps st1 = heps st2) as -> by congruence. now split.
  - intros Hsame.
    pose proof (get_docker_networks_ext w1 w2 Hsame) as Hget.
    split; [ exact Hget | ].
    intros Ha1 Ha2 Hd1 Hd2. unfold script, main. rewrite Hget.
    destruct (get_docker_networks w2) as [t [networks | e]]; [ | reflexivity ].
    unfold bind at 1 3. destruct networks as [ | n rest].
    + now rewrite Ha1, Ha2.
    + rewrite (for_networks_listing_ext w1 w2 a1 a2 _ Hnode Ha1 Ha2 Hd1 Hd2).
      now rewrite Ha1, Ha2.
Qed.

(** * The claims on a concrete runtime *)

Lemma demo_files_writable listing rejects a :
  files_writable (Demo.runtime listing rejects) a.
Proof. intros dir _. split; reflexivity. Qed.

Lemma demo_same_runtime listing rejects1 rejects2 :
  same_runtime (Demo.runtime listing rejects1) (Demo.runtime listing rejects2).
Proof. split; intros; reflexivity. Qed.

Lemma filter_completeness_witness :
  lacks_marker Demo.plain
  /\ ~ In Demo.plain [Demo.web; Demo.db; Demo.api]
  /\ forall h,
       In h (derived "node-1" [Demo.web; Demo.db; Demo.api]) ->
       ~ In h (derive "node-1" Demo.plain).
Proof.
  assert (Hlack : lacks_marker Demo.plain).
  { intros labels H. injection H as <-. reflexivity. }
  pose (w := Demo.runtime (Demo.lines ["aaa"; "bbb"; "ccc"; "ddd"; "eee"])
               Demo.accept_all).
  destruct filter_completeness as (_ & _ & H).
  destruct (H w Demo.listing_args
              (fst (get_docker_networks w))
              (fst (for_networks w Demo.listing_args
                      [Demo.web; Demo.db; Demo.api] initial_state))
              [Demo.web; Demo.db; Demo.api]
              {| heps := derived "node-1" [Demo.web; Demo.db; Demo.api];
                 applied_count := 0; failed_count := 0 |}
              Demo.plain)
    as (_ & Hnot & Hnone);
    [ vm_compute; reflexivity | vm_compute; reflexivity | exact Hlack | ].
  split; [ exact Hlack | ]. split; [ exact Hnot | exact Hnone ].
Defined.

Lemma derivation_defaults_witness :
  Options Demo.web = Val [(bridge_name_option, "br-aaa")]
  /\ Labels Demo.web <> Null
  /\ exists h,
       generate_hep_manifest Demo.web "node-1" = ([], Ret (Some h))
       /\ Json.path ["metadata"; "labels"; "app"] (manifest h)
            = Some (JStr "web")
       /\ Json.path ["metadata"; "labels"; "app-id"] (manifest h)
            = Some (JStr "unknown")
       /\ Json.path ["metadata"; "labels"; "role"] (manifest h)
            = Some (JStr "unknown").
Proof.
  split; [ reflexivity | ]. split; [ discriminate | ].
  destruct (derivation_defaults Demo.web "node-1"
              [(bridge_name_option, "br-aaa")] "br-aaa")
    as (h & Hgen & _ & Hfields);
    [ reflexivity | reflexivity | discriminate | discriminate | ].
  exists h. split; [ exact Hgen | ].
  split; [ | split ].
  - apply (proj2 (Hfields "netpol.app" "app" (or_introl eq_refl))).
    reflexivity.
  - apply (proj1 (Hfields "netpol.app_id" "app-id"
                    (or_intror (or_introl eq_refl)))).
    reflexivity.
  - apply (proj1 (Hfields "netpol.role" "role"
                    (or_intror (or_intror (or_introl eq_refl))))).
    reflexivity.
Defined.

Lemma apply_mode_accounting_witness :
  let w := Demo.runtime (Demo.lines ["aaa"; "bbb"]) Demo.reject_all in
  get_docker_networks w = (fst (get_docker_networks w), Ret [Demo.web])
  /\ exists t2 st,
       for_networks w Demo.apply_args [Demo.web] initial_state = (t2, Ret st)
       /\ events (script w Demo.apply_args) =
            (fst (get_docker_networks w) ++ t2 ++ [Stdout (summary st)])%list
       /\ (exit_code (script w Demo.apply_args) = 1%Z <->
           exists h, In h (heps st)
                     /\ accepted w (dry_run Demo.apply_args) h = false).
Proof.
  intros w.
  assert (Hget : get_docker_networks w
                 = (fst (get_docker_networks w), Ret [Demo.web]))
    by (vm_compute; reflexivity).
  split; [ exact Hget | ].
  destruct (apply_mode_accounting w Demo.apply_args
              (fst (get_docker_networks w)) [Demo.web])
    as (t2 & st & Hloop & _ & _ & _ & _ & _ & Hevents & Hexit & _).
  - reflexivity.
  - exact Hget.
  - discriminate.
  - repeat constructor; discriminate.
  - apply demo_files_writable.
  - exists t2, st. split; [ exact Hloop | ]. split; [ exact Hevents | exact Hexit ].
Defined.

Lemma enumeration_failure_is_fatal_witness :
  let w := Demo.runtime (Demo.lines ["aaa"; "zzz"; "eee"]) Demo.accept_all in
  succeeds w (docker_network_inspect "zzz") = false
  /\ exists cmds diagnostic,
       events (script w Demo.listing_args) = (runs cmds ++ [diagnostic])%list
       /\ is_diagnostic diagnostic = true
       /\ exit_code (script w Demo.listing_args) = 1%Z.
Proof.
  intros w. split; [ reflexivity | ].
  destruct (enumeration_failure_is_fatal w Demo.listing_args)
    as (cmds & d & Hevents & Hd & _ & Hexit & _).
  - right. exists (Demo.lines ["aaa"; "zzz"; "eee"]), "zzz".
    split; [ reflexivity | ]. split; [ | reflexivity ].
    vm_compute. right. left. reflexivity.
  - now exists cmds, d.
Defined.

Lemma missing_bridge_name_is_skipped_witness :
  let w := Demo.runtime (Demo.lines ["aaa"; "ccc"]) Demo.accept_all in
  lacks_bridge_name Demo.db
  /\ generate_hep_manifest Demo.db "node-1" = ([warning Demo.db], Ret None)
  /\ In (warning Demo.db) (events (script w Demo.apply_args))
  /\ exit_code (script w Demo.apply_args) = 0%Z.
Proof.
  intros w.
  assert (Hlack : lacks_bridge_name Demo.db).
  { right. eexists. split; reflexivity. }
  split; [ exact Hlack | ].
  destruct (missing_bridge_name_is_skipped w Demo.apply_args
              (fst (get_docker_networks w)) [Demo.web; Demo.db] Demo.db)
    as (Hgen & _ & _ & Hwarn & Hexit).
  - vm_compute. reflexivity.
  - right. now left.
  - exact Hlack.
  - repeat constructor; discriminate.
  - apply demo_files_writable.
  - intros _. vm_compute. repeat constructor.
  - split; [ exact Hgen | ]. split; [ exact Hwarn | exact Hexit ].
Defined.

Lemma manifest_shape_witness :
  exists options bridge,
    Options Demo.api = Val options
    /\ Dict.lookup bridge_name_option options = Some bridge
    /\ Json.path ["metadata"; "name"]
         (manifest (entry Demo.api "node-1" "br-bbb"
                      [("netpol.role", "backend"); ("netpol.app", "shop");
                       ("netpol.app_id", "42")]))
       = Some (JStr bridge).
Proof.
  destruct (manifest_shape Demo.api "node-1" []
              (entry Demo.api "node-1" "br-bbb"
                 [("netpol.role", "backend"); ("netpol.app", "shop");
                  ("netpol.app_id", "42")]))
    as (options & bridge & _ & _ & _ & Ho & Hb & _ & Hname & _);
    [ reflexivity | ].
  now exists options, bridge.
Defined.

Lemma empty_listing_witness :
  let w := Demo.runtime (Demo.lines ["bbb"; "ccc"; "ddd"]) Demo.accept_all in
  get_docker_networks w = (fst (get_docker_networks w), Ret [Demo.db])
  /\ stdout_of (events (script w Demo.listing_args)) = ["[]"]
  /\ exit_code (script w Demo.listing_args) = 0%Z.
Proof.
  intros w.
  assert (Hget : get_docker_networks w
                 = (fst (get_docker_networks w), Ret [Demo.db]))
    by (vm_compute; reflexivity).
  split; [ exact Hget | ].
  destruct (empty_listing w Demo.listing_args
              (fst (get_docker_networks w)) [Demo.db])
    as (Hout & Hempty & Hexit).
  - reflexivity.
  - exact Hget.
  - constructor; [ | constructor ]. eexists. reflexivity.
  - rewrite Hempty in Hout. split; [ exact Hout | exact Hexit ].
Defined.

Lemma rerun_is_identical_witness :
  let w1 := Demo.runtime (Demo.lines ["aaa"; "eee"]) Demo.accept_all in
  let w2 := Demo.runtime (Demo.lines ["aaa"; "eee"]) Demo.reject_all in
  node_name Demo.listing_args = node_name Demo.apply_args
  /\ same_runtime w1 w2
  /\ get_docker_networks w1 = get_docker_networks w2
  /\ script w1 Demo.listing_args = script w2 Demo.listing_args.
Proof.
  intros w1 w2.
  split; [ reflexivity | ].
  split; [ apply demo_same_runtime | ].
  destruct (rerun_is_identical w1 w2 Demo.listing_args Demo.listing_args
              eq_refl) as (_ & H).
  destruct (H (demo_same_runtime _ _ _)) as (Hget & Hscript).
  split; [ exact Hget | ].
  apply Hscript; reflexivity.
Defined.

Lemma listing_entries_witness :
  let w := Demo.runtime (Demo.lines ["aaa"; "ccc"; "eee"]) Demo.accept_all in
  let networks := [Demo.web; Demo.db; Demo.api] in
  let t1 := fst (get_docker_networks w) in
  let t2 := fst (for_networks w Demo.listing_args networks initial_state) in
  let st := {| heps := derived "node-1" networks;
               applied_count := 0; failed_count := 0 |} in
  get_docker_networks w = (t1, Ret networks)
  /\ for_networks w Demo.listing_args networks initial_state = (t2, Ret st)
  /\ events (script w Demo.listing_args) =
       (t1 ++ t2
         ++ [Stdout (Json.dumps 2 (JArr (map hep_data_json (heps st))))])%list.
Proof.
  intros w networks t1 t2 st.
  assert (Hget : get_docker_networks w = (t1, Ret networks))
    by (vm_compute; reflexivity).
  assert (Hloop : for_networks w Demo.listing_args networks initial_state
                  = (t2, Ret st))
    by (vm_compute; reflexivity).
  split; [ exact Hget | ]. split; [ exact Hloop | ].
  exact (proj1 (listing_entries w Demo.listing_args t1 t2 networks st
                  eq_refl Hget Hloop)).
Defined.

Lemma no_label_map_and_empty_bridge_name_witness :
  has_netpol_labels Demo.host = false
  /\ forall options,
       generate_hep_manifest
         {| Name := "x"; Labels := Val [("netpol.app", "a")];
            Options := Val ((bridge_name_option, EmptyString) :: options) |}
         "node-1"
       = generate_hep_manifest
           {| Name := "x"; Labels := Val [("netpol.app", "a")];
              Options := Missing |}
           "node-1".
Proof.
  destruct no_label_map_and_empty_bridge_name as (Hfilter & _ & Hbridge).
  split; [ apply Hfilter; now right | ].
  intros options. symmetry.
  apply (Hbridge _ "node-1" ((bridge_name_option, EmptyString) :: options));
    [ reflexivity | reflexivity | reflexivity | now left ].
Defined.

(** ** The scenarios of the specification *)

(** Two networks, one with [netpol.app = web] and bridge [br-aaa], one
    without the label: only the first is processed, and its manifest falls
    back to ["unknown"] for the two labels it lacks. *)
Example scenario_two_networks :
  let w := Demo.runtime (Demo.lines ["aaa"; "bbb"]) Demo.accept_all in
  get_docker_networks w
    = ([Run docker_network_ls None;
        Run (docker_network_inspect "aaa") None;
        Run (docker_network_inspect "bbb") None], Ret [Demo.web])
  /\ derived "node-1" [Demo.web] =
       [{| manifest := hep_manifest "br-aaa" "web" "unknown" "unknown" "node-1";
           filename := "hep-web-unknown.yaml";
           network_name := "web_net";
           bridge_name := "br-aaa";
           labels := [("netpol.app", "web")] |}].
Proof. split; vm_compute; reflexivity. Qed.

(** Apply mode with one manifest that the policy engine rejects: the summary
    line is still printed, with 0 applied and 1 failed, and the exit code
    is 1. *)
Example scenario_rejected_manifest :
  let w := Demo.runtime (Demo.lines ["aaa"]) Demo.reject_all in
  stdout_of (events (script w Demo.apply_args)) =
    ["Applying HostEndpoint for network web_net -> br-aaa";
     "✗ Failed to apply HostEndpoint br-aaa";
     PyStr.LF ++ "Summary: 0 applied, 1 failed"]
  /\ exit_code (script w Demo.apply_args) = 1%Z.
Proof. split; vm_compute; reflexivity. Qed.

(** * Further properties of the script *)

(** ** Events and results through [bind] *)

Lemma events_bind {A B} (P : event -> Prop) (m : M A) (k : A -> M B) :
  Forall P (fst m) ->
  (forall t a, m = (t, Ret a) -> Forall P (fst (k a))) ->
  Forall P (fst (bind m k)).
Proof.
  intros Hm Hk. destruct m as [t [a | e]]; cbn in *; [ | assumption ].
  specialize (Hk t a eq_refl). destruct (k a) as [t' r]. cbn in *.
  apply Forall_app. now split.
Qed.

Lemma no_exit_bind {A B} (m : M A) (k : A -> M B) :
  no_exit (snd m) ->
  (forall t a, m = (t, Ret a) -> no_exit (snd (k a))) ->
  no_exit (snd (bind m k)).
Proof.
  intros Hm Hk. destruct m as [t [a | e]]; cbn in *; [ | assumption ].
  specialize (Hk t a eq_refl). now destruct (k a) as [t' r].
Qed.

Lemma prefix_app (s t : string) : String.prefix s (s ++ t) = true.
Proof.
  induction s as [ | c s IH]; cbn; [ now destruct t | ].
  destruct (ascii_dec c c); [ assumption | congruence ].
Qed.

(** [os.path.join] keeps the directory in front of a relative file name. *)
Lemma os_path_join_prefix dir name :
  String.prefix "/" name = false ->
  String.prefix dir (os_path_join dir name) = true.
Proof.
  intros Hrel. unfold os_path_join. rewrite Hrel.
  destruct dir as [ | c dir]; [ now destruct name | ].
  destruct (String.eqb _ "/"); apply prefix_app.
Qed.

Lemma filename_relative n node bridge labels :
  String.prefix "/" (filename (entry n node bridge labels)) = false.
Proof. reflexivity. Qed.

(** ** The apply helper *)

Lemma apply_hep_manifest_cases w m dry :
  apply_hep_manifest w m dry =
  match subprocess_run w (helper_cmd dry) (Some (yaml_dump w m)) with
  | Succeeded _ =>
      ([Run (helper_cmd dry) (Some (yaml_dump w m))], Ret true)
  | Failed _ stderr =>
      ([Run (helper_cmd dry) (Some (yaml_dump w m));
        Stderr ("Error applying manifest: " ++ stderr)], Ret false)
  | NotRun message =>
      ([Run (helper_cmd dry) (Some (yaml_dump w m));
        Stderr ("Unexpected error applying manifest: " ++ message)],
       Ret false)
  end.
Proof.
  unfold apply_hep_manifest. cbv zeta.
  replace ([apply_calico_manifests] ++ (if dry then ["--dry-run"] else []))%list
    with (helper_cmd dry) by now destruct dry.
  rewrite bind_tell.
  now destruct (subprocess_run w (helper_cmd dry) _).
Qed.

(** X1. [apply_hep_manifest] never raises.  Whatever the helper does, the
    call makes exactly one submission, of the YAML of the manifest, with
    [--dry-run] on the command line exactly when a dry run is asked for; it
    returns [True] exactly when the helper ends with status 0, silently, and
    otherwise returns [False] after one line on the error stream. *)
Theorem apply_hep_manifest_never_raises w m dry :
  exists ok diag,
    apply_hep_manifest w m dry =
      (Run (helper_cmd dry) (Some (yaml_dump w m)) :: diag, Ret ok)
    /\ (ok = true <->
        exists stdout,
          subprocess_run w (helper_cmd dry) (Some (yaml_dump w m))
            = Succeeded stdout)
    /\ (ok = true -> diag = [])
    /\ (ok = false -> exists text, diag = [Stderr text])
    /\ (In "--dry-run" (helper_cmd dry) <-> dry = true).
Proof.
  assert (Hflag : In "--dry-run" (helper_cmd dry) <-> dry = true).
  { destruct dry; cbn; split; try discriminate; auto.
    intros [H | []]. discriminate H. }
  rewrite apply_hep_manifest_cases.
  destruct (subprocess_run w (helper_cmd dry) _) as [out | msg err | msg].
  - exists true, []. repeat split; eauto; try discriminate; apply Hflag.
  - exists false, [Stderr ("Error applying manifest: " ++ err)].
    repeat split; eauto; try discriminate; try apply Hflag.
    intros [? ?]; discriminate.
  - exists false, [Stderr ("Unexpected error applying manifest: " ++ msg)].
    repeat split; eauto; try discriminate; try apply Hflag.
    intros [? ?]; discriminate.
Qed.

(** ** What the loop can do *)

Lemma subscript_silent ks : forall v, fst (subscript v ks) = [].
Proof.
  induction ks as [ | k ks IH]; intros v; cbn; [ reflexivity | ].
  destruct (Json.get k v); [ apply IH | reflexivity ].
Qed.

Lemma subscript_no_exit ks : forall v, no_exit (snd (subscript v ks)).
Proof.
  induction ks as [ | k ks IH]; intros v; cbn; [ exact I | ].
  destruct (Json.get k v); [ apply IH | exact I ].
Qed.

Lemma print_event (P : event -> Prop) text :
  P (Stdout text) -> Forall P (fst (print text)).
Proof. intros H. repeat constructor. exact H. Qed.

Lemma write_manifest_events w a dir h :
  output_dir a = Some dir -> dir <> EmptyString ->
  String.prefix "/" (filename h) = false ->
  Forall (loop_event a) (fst (write_manifest w dir h)).
Proof.
  intros Hdir Hne Hrel. unfold write_manifest.
  assert (Hout : forall text, loop_event a (Stdout text)) by (right; eauto).
  assert (Hmk : loop_event a (MakeDirs dir)) by (now split).
  assert (Hwr : forall content,
            loop_event a (WriteFile (os_path_join dir (filename h)) content)).
  { intros content. exists dir. repeat split; try assumption.
    now apply os_path_join_prefix. }
  destruct (makedirs_ok w dir);
    [ destruct (open_ok w (os_path_join dir (filename h))) | ]; cbn;
    repeat (apply Forall_cons;
            [ first [ exact Hmk | apply Hwr | apply Hout ] | ]);
    apply Forall_nil.
Qed.

Lemma write_manifest_no_exit w dir h : no_exit (snd (write_manifest w dir h)).
Proof.
  unfold write_manifest.
  destruct (makedirs_ok w dir); [ | exact I ].
  now destruct (open_ok w (os_path_join dir (filename h))).
Qed.

Lemma apply_one_events w a n h st :
  apply a = true -> Forall (loop_event a) (fst (apply_one w a n h st)).
Proof.
  intros Happly. unfold apply_one.
  assert (Hout : forall text, loop_event a (Stdout text)) by (now left).
  apply events_bind; [ now apply print_event | intros _ _ _ ].
  apply events_bind.
  - rewrite apply_hep_manifest_cases.
    destruct (subprocess_run w _ _); cbn;
      (constructor; [ repeat split; auto; discriminate | ]);
      now repeat constructor.
  - intros t ok _. destruct ok.
    + apply events_bind; [ rewrite subscript_silent; constructor | ].
      intros _ name _. apply events_bind; [ | intros; constructor ].
      destruct (negb (dry_run a)); now apply print_event.
    + apply events_bind; [ rewrite subscript_silent; constructor | ].
      intros _ name _. apply events_bind; [ | intros; constructor ].
      now apply print_event.
Qed.

Lemma apply_one_no_exit w a n h st : no_exit (snd (apply_one w a n h st)).
Proof.
  unfold apply_one.
  apply no_exit_bind; [ exact I | intros _ _ _ ].
  apply no_exit_bind.
  - rewrite apply_hep_manifest_cases. now destruct (subprocess_run w _ _).
  - intros t ok _. destruct ok.
    + apply no_exit_bind; [ apply subscript_no_exit | ].
      intros _ name _. apply no_exit_bind; [ | intros; exact I ].
      now destruct (negb (dry_run a)).
    + apply no_exit_bind; [ apply subscript_no_exit | ].
      intros _ name _. now apply no_exit_bind.
Qed.

Lemma generate_events a n node :
  Forall (loop_event a) (fst (generate_hep_manifest n node)).
Proof.
  rewrite generate_hep_manifest_eq.
  destruct (network_get (Options n)) as [options | ]; [ | constructor ].
  cbv zeta. destruct (PyStr.truthy _).
  - destruct (network_get (Labels n)); constructor.
  - repeat constructor.
Qed.

Lemma generate_no_exit n node : no_exit (snd (generate_hep_manifest n node)).
Proof.
  rewrite generate_hep_manifest_eq.
  destruct (network_get (Options n)) as [options | ]; [ | exact I ].
  cbv zeta. destruct (PyStr.truthy _); [ | exact I ].
  now destruct (network_get (Labels n)).
Qed.

Lemma loop_body_events w a n st :
  Forall (loop_event a) (fst (loop_body w a n st)).
Proof.
  unfold loop_body. apply events_bind; [ apply generate_events | ].
  intros t [h | ] Hgen; [ | constructor ].
  destruct (generate_Some _ _ _ _ Hgen)
    as (options & bridge & labels & _ & _ & _ & _ & _ & ->).
  apply events_bind.
  - destruct (output_dir a) as [dir | ] eqn:Hdir; [ | constructor ].
    destruct (PyStr.truthy dir) eqn:Ht; [ | constructor ].
    apply write_manifest_events; [ assumption | now apply truthy_true | ].
    apply filename_relative.
  - intros _ _ _. destruct (apply a) eqn:Happly; [ | constructor ].
    now apply apply_one_events.
Qed.

Lemma loop_body_no_exit w a n st : no_exit (snd (loop_body w a n st)).
Proof.
  unfold loop_body. apply no_exit_bind; [ apply generate_no_exit | ].
  intros t [h | ] _; [ | exact I ].
  apply no_exit_bind.
  - destruct (output_dir a) as [dir | ]; [ | exact I ].
    destruct (PyStr.truthy dir); [ apply write_manifest_no_exit | exact I ].
  - intros _ _ _. destruct (apply a); [ apply apply_one_no_exit | exact I ].
Qed.

Lemma for_networks_events w a networks : forall st,
  Forall (loop_event a) (fst (for_networks w a networks st)).
Proof.
  induction networks as [ | n rest IH]; intros st; [ constructor | ].
  cbn [for_networks]. apply events_bind; [ apply loop_body_events | ].
  intros _ st' _. apply IH.
Qed.

Lemma for_networks_no_exit w a networks : forall st,
  no_exit (snd (for_networks w a networks st)).
Proof.
  induction networks as [ | n rest IH]; intros st; [ exact I | ].
  cbn [for_networks]. apply no_exit_bind; [ apply loop_body_no_exit | ].
  intros _ st' _. apply IH.
Qed.

Lemma runs_are_queries cmds : Forall (fun e => is_query e = true) (runs cmds).
Proof. induction cmds; cbn; constructor; auto. Qed.

Lemma get_docker_networks_events w :
  Forall (fun e => is_query e = true) (fst (get_docker_networks w)).
Proof.
  destruct (query_shape_get_docker_networks w) as (cmds & _ & H).
  pose proof (runs_are_queries cmds) as Hruns.
  destruct (get_docker_networks w) as [t [nets | e]]; cbn in *.
  - now destruct H as [-> _].
  - destruct e; try (now rewrite H).
    destruct H as [_ [text ->]]. apply Forall_app. split; [ assumption | ].
    now repeat constructor.
Qed.

(** The events of a whole run: those of the enumeration, then those of the
    loop, then at most one closing line or report. *)
Lemma script_events w a :
  exists t1 t2 closing,
    events (script w a) = (t1 ++ t2 ++ closing)%list
    /\ Forall (fun e => is_query e = true) t1
    /\ Forall (loop_event a) t2
    /\ (closing = [] \/ (exists text, closing = [Stdout text])
        \/ exists e, closing = [Traceback e]).
Proof.
  pose proof (get_docker_networks_events w) as Hq.
  destruct (get_docker_networks w) as [t1 [networks | e]] eqn:Hget; cbn in Hq.
  - unfold script. rewrite (main_eq _ _ _ _ Hget).
    destruct networks as [ | n rest].
    + exists t1, [], [Stdout (if apply a
                             then "No networks with netpol labels found"
                             else "[]")].
      cbn. repeat split; auto. right. left. eauto.
    + pose proof (for_networks_events w a (n :: rest) initial_state) as Hl.
      pose proof (for_networks_no_exit w a (n :: rest) initial_state) as Hn.
      destruct (for_networks w a (n :: rest) initial_state) as [t2 [st | e]];
        cbn in Hl, Hn.
      * destruct (apply a).
        -- exists t1, t2, [Stdout (summary st)].
           destruct (0 <? failed_count st)%nat; cbn;
             repeat split; auto; right; left; eauto.
        -- eexists t1, t2, [Stdout _]. cbn.
           repeat split; auto. right. left. eauto.
      * exists t1, t2, [Traceback e].
        destruct e; [ destruct Hn | .. ]; cbn; rewrite <- app_assoc;
          repeat split; auto; right; right; eauto.
  - assert (Hmain : main w a = (t1, Raise e))
      by (unfold main; now rewrite (bind_of_Raise _ _ _ _ Hget)).
    unfold script. rewrite Hmain.
    destruct e.
    1: { exists t1, [], []. cbn. rewrite app_nil_r. repeat split; auto. }
    all: eexists t1, [], [Traceback _]; cbn; repeat split; auto;
      right; right; eauto.
Qed.

Lemma query_not_loop_like e :
  is_query e = true ->
  is_file_event e = false
  /\ (forall cmd doc, e <> Run cmd (Some doc))
  /\ (forall text, e <> Stdout text).
Proof.
  destruct e as [cmd [doc | ] | | | | | ]; cbn; try discriminate;
    intros _; repeat split; congruence.
Qed.

(** X2. Submissions follow the flags.  Every document handed to an external
    program during a run is handed to the apply helper, in apply mode only,
    and with [--dry-run] on its command line exactly when the run was asked
    for a dry run; a listing run submits nothing. *)
Theorem submissions_respect_flags w a :
  (forall cmd doc,
     In (Run cmd (Some doc)) (events (script w a)) ->
     apply a = true /\ cmd = helper_cmd (dry_run a)
     /\ (In "--dry-run" cmd <-> dry_run a = true))
  /\ (apply a = false -> submitted (events (script w a)) = []).
Proof.
  destruct (script_events w a) as (t1 & t2 & closing & -> & H1 & H2 & Hc).
  rewrite Forall_forall in H1, H2.
  assert (Hsub : forall cmd doc,
            In (Run cmd (Some doc)) (t1 ++ t2 ++ closing) ->
            apply a = true /\ cmd = helper_cmd (dry_run a)).
  { intros cmd doc Hin.
    apply in_app_or in Hin as [Hin | Hin];
      [ | apply in_app_or in Hin as [Hin | Hin] ].
    - apply H1, query_not_loop_like in Hin as (_ & Hno & _).
      now destruct (Hno cmd doc).
    - apply H2 in Hin. cbn in Hin. tauto.
    - destruct Hc as [-> | [[text ->] | [e ->]]]; cbn in Hin;
        try tauto; destruct Hin as [Hin | []]; discriminate. }
  split.
  - intros cmd doc Hin. destruct (Hsub cmd doc Hin) as [Ha ->].
    repeat split; try assumption;
      destruct (dry_run a); cbn; auto; try discriminate.
    intros [H | []]. discriminate H.
  - intros Ha.
    assert (Hnone : forall t,
              (forall cmd doc, In (Run cmd (Some doc)) t -> False) ->
              submitted t = []).
    { induction t as [ | e t IH]; intros Hno; [ reflexivity | ].
      destruct e as [cmd [doc | ] | | | | | ]; cbn;
        try (apply IH; intros c d Hin; apply (Hno c d); now right).
      destruct (Hno cmd doc). now left. }
    apply Hnone. intros cmd doc Hin.
    destruct (Hsub cmd doc Hin) as [Hyes _]. congruence.
Qed.

(** X3. Files follow [--output-dir].  The only directory a run creates is
    the output directory; every file it writes has the output directory as a
    prefix of its path, because the file names start with [hep-] and
    [os.path.join] therefore never discards the directory; and without the
    option, or with an empty one, a run creates and writes nothing. *)
Theorem files_follow_output_dir w a :
  (forall path, In (MakeDirs path) (events (script w a)) ->
     output_dir a = Some path /\ path <> EmptyString)
  /\ (forall path content,
        In (WriteFile path content) (events (script w a)) ->
        exists dir,
          output_dir a = Some dir /\ dir <> EmptyString
          /\ String.prefix dir path = true)
  /\ (output_dir a = None \/ output_dir a = Some EmptyString ->
      Forall (fun e => is_file_event e = false) (events (script w a))).
Proof.
  destruct (script_events w a) as (t1 & t2 & closing & -> & H1 & H2 & Hc).
  rewrite Forall_forall in H1, H2.
  assert (Hfile : forall e, In e (t1 ++ t2 ++ closing) ->
            is_file_event e = true -> loop_event a e).
  { intros e Hin He.
    apply in_app_or in Hin as [Hin | Hin];
      [ | apply in_app_or in Hin as [Hin | Hin] ].
    - apply H1, query_not_loop_like in Hin as (Hno & _). congruence.
    - now apply H2.
    - destruct Hc as [-> | [[text ->] | [x ->]]]; cbn in Hin;
        try tauto; destruct Hin as [<- | []]; discriminate. }
  split; [ | split ].
  - intros path Hin. exact (Hfile _ Hin eq_refl).
  - intros path content Hin. exact (Hfile _ Hin eq_refl).
  - intros Hdir. apply Forall_forall. intros e Hin.
    destruct (is_file_event e) eqn:He; [ | reflexivity ].
    specialize (Hfile e Hin He).
    destruct e; try discriminate; cbn in Hfile.
    + destruct Hfile as [Hp Hne]. destruct Hdir; congruence.
    + destruct Hfile as (dir & Hp & Hne & _). destruct Hdir; congruence.
Qed.

(** X4. Exit codes after parsing.  For a parsed command line, the run of
    [main] from the enumeration on ends with exit code 0 or 1: 0 when it
    returns, 1 after [sys.exit(1)] or an uncaught exception.  (What
    [parse_args] does with a command line it refuses is not part of [main]
    here.) *)
Theorem exit_code_is_0_or_1 w a :
  exit_code (script w a) = 0%Z \/ exit_code (script w a) = 1%Z.
Proof.
  destruct (query_shape_get_docker_networks w) as (cmds & _ & Hshape).
  destruct (get_docker_networks w) as [t1 [networks | e]] eqn:Hget.
  - unfold script. rewrite (main_eq _ _ _ _ Hget).
    destruct networks as [ | n rest]; [ now left | ].
    pose proof (for_networks_no_exit w a (n :: rest) initial_state) as Hn.
    destruct (for_networks w a (n :: rest) initial_state) as [t2 [st | e]].
    + destruct (apply a); [ | now left ].
      destruct (0 <? failed_count st)%nat; [ now right | now left ].
    + destruct e; [ destruct Hn | .. ]; now right.
  - assert (Hmain : main w a = (t1, Raise e))
      by (unfold main; now rewrite (bind_of_Raise _ _ _ _ Hget)).
    unfold script. rewrite Hmain. cbn in Hshape.
    destruct e; [ destruct Hshape as [-> _] | .. ]; now right.
Qed.

(** ** Failures of the derivation *)

(** X5. When the derivation raises.  [generate_hep_manifest] raises exactly
    when the [Options] field is null, or the [Labels] field is null while the
    driver options hold a non-empty bridge name; what it raises is
    [AttributeError], before any output; and a null [Labels] field is
    harmless when there is no bridge name: the network is skipped with the
    warning. *)
Theorem derivation_failures n node :
  (generate_hep_manifest n node = ([], Raise AttributeError) <->
   Options n = Null
   \/ (Labels n = Null
       /\ exists options bridge,
            Options n = Val options
            /\ Dict.lookup bridge_name_option options = Some bridge
            /\ bridge <> EmptyString))
  /\ (forall t e, generate_hep_manifest n node = (t, Raise e) ->
        t = [] /\ e = AttributeError)
  /\ (Labels n = Null -> lacks_bridge_name n ->
      generate_hep_manifest n node = ([warning n], Ret None)).
Proof.
  split; [ | split ].
  - rewrite generate_hep_manifest_eq. split.
    + destruct (Options n) as [ | | options] eqn:Ho; cbn;
        [ discriminate | now left | ].
      destruct (PyStr.truthy _) eqn:Ht; [ | discriminate ].
      destruct (Labels n) as [ | | labels] eqn:Hl; cbn; try discriminate.
      intros _. right. split; [ reflexivity | ].
      apply truthy_true in Ht. unfold Dict.get in Ht.
      destruct (Dict.lookup bridge_name_option options) as [bridge | ] eqn:Hb;
        [ | congruence ].
      now exists options, bridge.
    + intros [-> | (-> & options & bridge & -> & Hb & Hne)]; cbn;
        [ reflexivity | ].
      unfold Dict.get. rewrite Hb. apply truthy_true in Hne. now rewrite Hne.
  - intros t e. rewrite generate_hep_manifest_eq.
    destruct (network_get (Options n)) as [options | ];
      [ | intros H; injection H as <- <-; now split ].
    cbv zeta. destruct (PyStr.truthy _); [ | discriminate ].
    destruct (network_get (Labels n)); [ discriminate | ].
    intros H. injection H as <- <-. now split.
  - intros _ Hlack. now apply lacks_bridge_name_skip.
Qed.

Lemma loop_body_null_options w a n st :
  Options n = Null -> loop_body w a n st = ([], Raise AttributeError).
Proof.
  intros Ho. unfold loop_body. rewrite generate_hep_manifest_eq, Ho.
  reflexivity.
Qed.

Lemma for_networks_null_options w a networks n : forall st,
  In n networks -> Options n = Null ->
  exists t e, for_networks w a networks st = (t, Raise e).
Proof.
  induction networks as [ | n' rest IH]; intros st Hin Ho; [ destruct Hin | ].
  cbn [for_networks].
  destruct (loop_body w a n' st) as [t [st' | e]] eqn:Hbody.
  - destruct Hin as [-> | Hin].
    + rewrite (loop_body_null_options _ _ _ _ Ho) in Hbody. discriminate.
    + destruct (IH st' Hin Ho) as (t' & e & Hrest).
      unfold bind. rewrite Hrest. eauto.
  - cbn. eauto.
Qed.

Lemma loop_events_silent a t :
  apply a = false -> output_dir a = None ->
  Forall (loop_event a) t -> stdout_of t = [].
Proof.
  intros Ha Hd. induction 1 as [ | e t He _ IH]; [ reflexivity | ].
  destruct e; cbn; try assumption.
  cbn in He. destruct He as [He | (dir & He & _)]; congruence.
Qed.

(** X6. A null [Options] field aborts the run.  When one of the qualifying
    networks has [Options: null], the loop ends with an uncaught exception:
    the run closes with a traceback and exit code 1, without a summary line;
    and a plain listing run prints nothing at all on standard output, not
    even the entries of the networks before it. *)
Theorem null_options_abort_the_run w a t1 networks n :
  get_docker_networks w = (t1, Ret networks) ->
  In n networks -> Options n = Null ->
  (exists t2 e,
     for_networks w a networks initial_state = (t2, Raise e)
     /\ events (script w a) = (t1 ++ t2 ++ [Traceback e])%list)
  /\ exit_code (script w a) = 1%Z
  /\ (apply a = false -> output_dir a = None ->
      stdout_of (events (script w a)) = []).
Proof.
  intros Hget Hin Ho.
  destruct (for_networks_null_options w a networks n initial_state Hin Ho)
    as (t2 & e & Hloop).
  pose proof (for_networks_no_exit w a networks initial_state) as Hn.
  pose proof (for_networks_events w a networks initial_state) as Hev.
  rewrite Hloop in Hn, Hev. cbn in Hn, Hev.
  assert (Hscript : script w a =
            {| events := (t1 ++ t2 ++ [Traceback e])%list; exit_code := 1 |}).
  { unfold script. rewrite (main_eq _ _ _ _ Hget).
    destruct networks as [ | n0 rest]; [ destruct Hin | ].
    rewrite Hloop. destruct e; [ destruct Hn | .. ]; cbn;
      now rewrite <- app_assoc. }
  rewrite Hscript. cbn [events exit_code].
  split; [ now exists t2, e | ]. split; [ reflexivity | ].
  intros Ha Hd. rewrite !stdout_of_app.
  rewrite (enumeration_silent _ _ _ Hget), (loop_events_silent a t2 Ha Hd Hev).
  reflexivity.
Qed.

(** ** Degenerate runtime listings *)

(** X7. An empty listing.  When [docker network ls] prints nothing but
    white space, no network is inspected: the run consists of that one
    command and one line on standard output, [[]] in listing mode and the
    sentence [No networks with netpol labels found] (no summary) in apply
    mode, and ends with exit code 0. *)
Theorem empty_runtime_listing w a stdout :
  subprocess_run w docker_network_ls None = Succeeded stdout ->
  PyStr.strip stdout = EmptyString ->
  events (script w a) =
    [Run docker_network_ls None;
     Stdout (if apply a then "No networks with netpol labels found" else "[]")]
  /\ exit_code (script w a) = 0%Z.
Proof.
  intros Hls Hempty.
  assert (Hget : get_docker_networks w = ([Run docker_network_ls None], Ret [])).
  { unfold get_docker_networks. rewrite run_command_eq, Hls, Hempty.
    reflexivity. }
  unfold script. rewrite (main_eq _ _ _ _ Hget). now split.
Qed.

Lemma inspect_networks_trace w net_ids : forall networks t result,
  inspect_networks w net_ids networks = (t, Ret result) ->
  t = runs (map docker_network_inspect (filter PyStr.truthy net_ids)).
Proof.
  induction net_ids as [ | net_id rest IH]; intros networks t result H;
    cbn [inspect_networks] in H.
  - now injection H as <- _.
  - cbn [filter]. destruct (PyStr.truthy net_id); cbn [negb] in H.
    + bind_inv H. bind_inv Hk.
      rewrite run_command_eq in Hm.
      destruct (subprocess_run w (docker_network_inspect net_id) None);
        try discriminate.
      injection Hm as <- <-.
      destruct (json_loads w _) as [[ | first others] | ]; try discriminate.
      injection Hm0 as <- <-.
      destruct (has_netpol_labels first); apply IH in Hk0; now rewrite Hk0.
    + now apply IH in H.
Qed.

(** X8. One inspection per listed network.  A successful enumeration runs
    [docker network ls] once and then [docker network inspect] exactly once
    for each non-empty line of its output, in the order of the lines, and
    nothing else; it returns at most as many networks as there are lines. *)
Theorem one_inspect_per_listed_network w t networks :
  get_docker_networks w = (t, Ret networks) ->
  exists stdout,
    subprocess_run w docker_network_ls None = Succeeded stdout
    /\ t = runs (docker_network_ls
                   :: map docker_network_inspect (network_ids stdout))
    /\ length networks <= length (network_ids stdout).
Proof.
  intros Hget.
  destruct (get_docker_networks_Ret _ _ _ Hget)
    as (out & seen & Hls & Hseen & Hnets).
  exists out. split; [ exact Hls | ]. split.
  - unfold get_docker_networks in Hget. rewrite run_command_eq, Hls in Hget.
    bind_inv Hget. injection Hm as <- <-. unfold network_ids.
    destruct (PyStr.truthy (PyStr.strip out)) eqn:Ht; cbn [negb] in Hk.
    + apply inspect_networks_trace in Hk. now rewrite Hk.
    + injection Hk as <- _. apply truthy_false in Ht. now rewrite Ht.
  - rewrite Hnets, (Forall2_length Hseen). apply filter_length_le.
Qed.

(** ** File names *)

Lemma entry_labels n node t h :
  generate_hep_manifest n node = (t, Ret (Some h)) ->
  filename h =
    "hep-"
      ++ match source_label n "netpol.app" with
         | Some v => v | None => "unknown" end
      ++ "-"
      ++ match source_label n "netpol.role" with
         | Some v => v | None => "unknown" end
      ++ ".yaml".
Proof.
  intros H.
  destruct (generate_Some _ _ _ _ H)
    as (options & bridge & labels & _ & _ & _ & Hl & _ & ->).
  unfold source_label, network_get in *.
  destruct (Labels n) as [ | | l]; try discriminate; now injection Hl as <-.
Qed.

(** X9. File names can collide.  The name of the manifest file is
    [hep-{app}-{role}.yaml] with the two label values, or ["unknown"]; it
    depends on nothing else, so two networks with the same [netpol.app] and
    [netpol.role] labels get the same file name, and the same path below any
    output directory, whatever their names, bridge names and node. *)
Theorem file_names_collide n1 n2 node1 node2 t1 t2 h1 h2 :
  generate_hep_manifest n1 node1 = (t1, Ret (Some h1)) ->
  generate_hep_manifest n2 node2 = (t2, Ret (Some h2)) ->
  source_label n1 "netpol.app" = source_label n2 "netpol.app" ->
  source_label n1 "netpol.role" = source_label n2 "netpol.role" ->
  filename h1 = filename h2
  /\ forall dir, os_path_join dir (filename h1) = os_path_join dir (filename h2).
Proof.
  intros H1 H2 Happ Hrole.
  assert (filename h1 = filename h2) as Heq
    by (rewrite (entry_labels _ _ _ _ H1), (entry_labels _ _ _ _ H2);
        now rewrite Happ, Hrole).
  split; [ exact Heq | ]. intros dir. now rewrite Heq.
Qed.

(** ** Accounting for every network *)

Lemma warning_is_warning n : is_warning (warning n) = true.
Proof. apply prefix_app. Qed.

Lemma write_manifest_no_warning w dir h :
  Forall (fun e => is_warning e = false) (fst (write_manifest w dir h)).
Proof.
  unfold write_manifest.
  destruct (makedirs_ok w dir); [ | now repeat constructor ].
  destruct (open_ok w (os_path_join dir (filename h)));
    now repeat constructor.
Qed.

Lemma apply_one_no_warning w a n h st :
  Forall (fun e => is_warning e = false) (fst (apply_one w a n h st)).
Proof.
  unfold apply_one.
  apply events_bind; [ now repeat constructor | intros _ _ _ ].
  apply events_bind.
  - rewrite apply_hep_manifest_cases.
    destruct (subprocess_run w _ _); now repeat constructor.
  - intros t ok _. destruct ok.
    + apply events_bind; [ rewrite subscript_silent; constructor | ].
      intros _ name _. apply events_bind; [ | intros; constructor ].
      destruct (negb (dry_run a)); now repeat constructor.
    + apply events_bind; [ rewrite subscript_silent; constructor | ].
      intros _ name _. apply events_bind; [ | intros; constructor ].
      now repeat constructor.
Qed.

Lemma loop_body_accounting w a n st t st' :
  loop_body w a n st = (t, Ret st') ->
  length (heps st') + length (filter is_warning t) = S (length (heps st)).
Proof.
  intros H. pose proof (loop_body_heps _ _ _ _ _ _ H) as Hheps.
  unfold loop_body in H. bind_inv H.
  rewrite Hheps, (derive_of_generate _ _ _ _ Hm), length_app, filter_app,
    length_app.
  destruct x as [h | ].
  - destruct (generate_Some _ _ _ _ Hm) as (_ & _ & _ & _ & _ & _ & _ & -> & _).
    bind_inv Hk.
    assert (Hw : filter is_warning t = []).
    { apply filter_none.
      destruct (output_dir a) as [dir | ]; [ | now injection Hm0 as <- _ ].
      destruct (PyStr.truthy dir); [ | now injection Hm0 as <- _ ].
      pose proof (write_manifest_no_warning w dir h) as Hno.
      now rewrite Hm0 in Hno. }
    assert (Ha : filter is_warning t0 = []).
    { apply filter_none.
      destruct (apply a); [ | now injection Hk0 as <- _ ].
      pose proof (apply_one_no_warning w a n h
                    {| heps := (heps st ++ [h])%list;
                       applied_count := applied_count st;
                       failed_count := failed_count st |}) as Hno.
      now rewrite Hk0 in Hno. }
    cbn [app]. rewrite filter_app, Hw, Ha. cbn. lia.
  - destruct (generate_None _ _ _ Hm) as [-> _]. injection Hk as <- _.
    cbn [filter]. rewrite warning_is_warning. cbn. lia.
Qed.

Lemma for_networks_accounting w a networks : forall st t st',
  for_networks w a networks st = (t, Ret st') ->
  length (heps st') + length (filter is_warning t)
  = length (heps st) + length networks.
Proof.
  induction networks as [ | n rest IH]; intros st t st' H;
    cbn [for_networks] in H.
  - injection H as <- <-. cbn. lia.
  - bind_inv H. apply loop_body_accounting in Hm. apply IH in Hk.
    rewrite filter_app, length_app. cbn [length]. lia.
Qed.

(** X10. Every network is accounted for.  When the loop of [main]
    completes, each network it was given has produced either one collected
    entry or one warning on the error stream, never both and never neither:
    the entries and the warnings together are as many as the networks. *)
Theorem every_network_is_accounted_for w a networks t st :
  for_networks w a networks initial_state = (t, Ret st) ->
  length (heps st) + length (filter is_warning t) = length networks
  /\ length (heps st) <= length networks.
Proof.
  intros H. apply for_networks_accounting in H. cbn in H. lia.
Qed.

(** ** Listing together with [--output-dir] *)

Lemma loop_body_listing_stdout w a n st dir :
  apply a = false -> output_dir a = Some dir -> dir <> EmptyString ->
  files_writable w a -> Labels n <> Null -> Options n <> Null ->
  exists t st',
    loop_body w a n st = (t, Ret st')
    /\ stdout_of t = map (written dir) (derive (node_name a) n).
Proof.
  intros Ha Hdir Hne Hfiles Hl Ho.
  destruct (generate_total n (node_name a) Hl Ho) as [Hskip | [h Hgen]].
  - exists [warning n], st.
    rewrite (loop_body_skip _ _ _ _ _ Hskip).
    now rewrite (derive_of_generate _ _ _ _ Hskip).
  - rewrite (derive_of_generate _ _ _ _ Hgen).
    unfold loop_body. rewrite Hgen, bind_silent, Hdir, Ha.
    apply truthy_true in Hne. rewrite Hne.
    destruct (Hfiles dir Hdir) as [Hd Hop].
    rewrite (write_manifest_ok _ _ _ Hd Hop).
    eexists _, _. split; reflexivity.
Qed.

Lemma for_networks_listing_stdout w a networks dir : forall st,
  apply a = false -> output_dir a = Some dir -> dir <> EmptyString ->
  files_writable w a ->
  Forall (fun n => Labels n <> Null /\ Options n <> Null) networks ->
  exists t st',
    for_networks w a networks st = (t, Ret st')
    /\ stdout_of t = map (written dir) (derived (node_name a) networks).
Proof.
  induction networks as [ | n rest IH]; intros st Ha Hdir Hne Hfiles Hwf.
  - now exists [], st.
  - inversion Hwf as [ | ? ? [Hl Ho] Hrest]; subst.
    destruct (loop_body_listing_stdout w a n st dir Ha Hdir Hne Hfiles Hl Ho)
      as (t1 & st1 & Hbody & Hout1).
    destruct (IH st1 Ha Hdir Hne Hfiles Hrest) as (t2 & st2 & Hloop & Hout2).
    exists (t1 ++ t2)%list, st2. cbn [for_networks].
    rewrite (bind_of_Ret _ _ _ _ Hbody), Hloop. cbn [fst snd].
    split; [ reflexivity | ].
    unfold derived in *. cbn [flat_map].
    now rewrite stdout_of_app, map_app, Hout1, Hout2.
Qed.

(** X11. Listing with [--output-dir].  A listing run that also writes the
    manifest files prints one [Written: <path>] line per entry before the
    JSON array, so its standard output is the JSON document alone only when
    no entry is derived. *)
Theorem listing_with_output_dir w a t1 networks dir :
  apply a = false ->
  output_dir a = Some dir -> dir <> EmptyString ->
  get_docker_networks w = (t1, Ret networks) ->
  Forall (fun n => Options n <> Null) networks ->
  files_writable w a ->
  stdout_of (events (script w a)) =
    (map (written dir) (derived (node_name a) networks)
       ++ [Json.dumps 2
             (JArr (map hep_data_json (derived (node_name a) networks)))])%list
  /\ (stdout_of (events (script w a))
        = [Json.dumps 2
             (JArr (map hep_data_json (derived (node_name a) networks)))]
      <-> derived (node_name a) networks = []).
Proof.
  intros Ha Hdir Hne Hget Hopt Hfiles.
  pose proof (Forall_and_intro _ _ _ (qualifying_not_null _ _ _ Hget) Hopt)
    as Hwf.
  destruct (for_networks_listing_stdout w a networks dir initial_state
              Ha Hdir Hne Hfiles Hwf) as (t2 & st & Hloop & Hout).
  pose proof (for_networks_heps _ _ _ _ _ _ Hloop) as Hheps. cbn in Hheps.
  assert (Hstd : stdout_of (events (script w a)) =
            (map (written dir) (derived (node_name a) networks)
               ++ [Json.dumps 2
                     (JArr (map hep_data_json
                              (derived (node_name a) networks)))])%list).
  { unfold script. rewrite (main_eq _ _ _ _ Hget), Ha.
    destruct networks as [ | n rest].
    - cbn [events]. rewrite stdout_of_app, (enumeration_silent _ _ _ Hget).
      reflexivity.
    - rewrite Hloop. cbn [events].
      rewrite !stdout_of_app, (enumeration_silent _ _ _ Hget), Hout, Hheps.
      reflexivity. }
  split; [ exact Hstd | ].
  rewrite Hstd. split.
  - intros H. destruct (derived (node_name a) networks) as [ | h l];
      [ reflexivity | ].
    apply (f_equal (@length string)) in H.
    rewrite length_app, length_map in H. cbn in H. lia.
  - now intros ->.
Qed.

(** ** Progress lines of the apply block *)

(** X12. The apply block names the bridge.  On an entry that
    [generate_hep_manifest] derived, the apply block never raises: the lookup
    [hep_data['manifest']['metadata']['name']] succeeds and yields the bridge
    name, and the block prints exactly two lines, the announcement with the
    network name and the bridge name, then the outcome of the submission
    (applied, dry-run successful, or failed) followed by the bridge name. *)
Theorem apply_block_names_the_bridge w a n t h st :
  generate_hep_manifest n (node_name a) = (t, Ret (Some h)) ->
  subscript (manifest h) ["metadata"; "name"]
    = ([], Ret (JStr (bridge_name h)))
  /\ exists events st',
       apply_one w a n h st = (events, Ret st')
       /\ stdout_of events =
            ["Applying HostEndpoint for network " ++ Name n ++ " -> "
               ++ bridge_name h;
             (if accepted w (dry_run a) h
              then if dry_run a
                   then "✓ Dry-run successful for HostEndpoint "
                   else "✓ Applied HostEndpoint "
              else "✗ Failed to apply HostEndpoint ") ++ bridge_name h].
Proof.
  intros Hgen.
  destruct (generate_Some _ _ _ _ Hgen)
    as (options & bridge & labels & _ & _ & _ & _ & _ & ->).
  split; [ reflexivity | ].
  unfold apply_one, print, accepted.
  rewrite bind_tell, apply_hep_manifest_cases.
  destruct (subprocess_run w (helper_cmd (dry_run a)) _);
    destruct (dry_run a); cbn; eexists _, _; split; reflexivity.
Qed.

(** ** Flags that do not matter *)

Lemma for_networks_dry_run_ext w a flag networks :
  apply a = false ->
  forall st,
    for_networks w (with_dry_run a flag) networks st
    = for_networks w a networks st.
Proof.
  intros Ha. induction networks as [ | n rest IH]; intros st;
    [ reflexivity | ].
  cbn [for_networks].
  assert (Hbody : loop_body w (with_dry_run a flag) n st = loop_body w a n st).
  { unfold loop_body. cbn [node_name output_dir apply with_dry_run].
    now rewrite Ha. }
  rewrite Hbody. destruct (loop_body w a n st) as [t [st' | e]];
    [ | reflexivity ].
  unfold bind. now rewrite IH.
Qed.

(** X13. [--dry-run] without [--apply].  In a run that does not apply, the
    [--dry-run] flag changes nothing: the events and the exit code are the
    same with and without it. *)
Theorem dry_run_alone_changes_nothing w a flag :
  apply a = false ->
  script w (with_dry_run a flag) = script w a.
Proof.
  intros Ha. unfold script, main.
  destruct (get_docker_networks w) as [t [networks | e]]; [ | reflexivity ].
  unfold bind at 1 3. destruct networks as [ | n rest].
  - cbn [apply with_dry_run]. reflexivity.
  - rewrite (for_networks_dry_run_ext w a flag _ Ha).
    cbn [apply with_dry_run]. now rewrite Ha.
Qed.

(** ** The further properties on concrete runtimes *)

Lemma lab_files_writable table a : files_writable (Lab.runtime table) a.
Proof. intros dir _. split; reflexivity. Qed.

Lemma submissions_respect_flags_witness :
  let w := Demo.runtime (Demo.lines ["aaa"]) Demo.accept_all in
  let doc :=
    yaml_dump w (hep_manifest "br-aaa" "web" "unknown" "unknown" "node-1") in
  In (Run [apply_calico_manifests] (Some doc))
     (events (script w Demo.apply_args))
  /\ apply Demo.apply_args = true
  /\ [apply_calico_manifests] = helper_cmd (dry_run Demo.apply_args).
Proof.
  intros w doc.
  assert (Hin : In (Run [apply_calico_manifests] (Some doc))
                   (events (script w Demo.apply_args))).
  { vm_compute. repeat (first [ left; reflexivity | right ]). }
  split; [ exact Hin | ].
  destruct (proj1 (submissions_respect_flags w Demo.apply_args) _ _ Hin)
    as (Ha & Hc & _).
  split; assumption.
Defined.

Lemma files_follow_output_dir_witness :
  let w := Lab.runtime [("aaa", Demo.web)] in
  let doc :=
    yaml_dump w (hep_manifest "br-aaa" "web" "unknown" "unknown" "node-1") in
  In (WriteFile "/srv/heps/hep-web-unknown.yaml" doc)
     (events (script w Lab.files_args))
  /\ exists dir,
       output_dir Lab.files_args = Some dir /\ dir <> EmptyString
       /\ String.prefix dir "/srv/heps/hep-web-unknown.yaml" = true.
Proof.
  intros w doc.
  assert (Hin : In (WriteFile "/srv/heps/hep-web-unknown.yaml" doc)
                   (events (script w Lab.files_args))).
  { vm_compute. repeat (first [ left; reflexivity | right ]). }
  split; [ exact Hin | ].
  exact (proj1 (proj2 (files_follow_output_dir w Lab.files_args)) _ _ Hin).
Defined.

Lemma derivation_failures_witness :
  Options Lab.no_options = Null
  /\ generate_hep_manifest Lab.no_options "node-1"
     = ([], Raise AttributeError).
Proof.
  split; [ reflexivity | ].
  apply (proj1 (derivation_failures Lab.no_options "node-1")).
  left. reflexivity.
Defined.

Lemma null_options_abort_the_run_witness :
  let w := Lab.runtime [("aaa", Demo.web); ("nnn", Lab.no_options);
                        ("eee", Demo.api)] in
  get_docker_networks w
    = (fst (get_docker_networks w),
       Ret [Demo.web; Lab.no_options; Demo.api])
  /\ exit_code (script w Demo.listing_args) = 1%Z
  /\ stdout_of (events (script w Demo.listing_args)) = [].
Proof.
  intros w.
  assert (Hget : get_docker_networks w
                 = (fst (get_docker_networks w),
                    Ret [Demo.web; Lab.no_options; Demo.api]))
    by (vm_compute; reflexivity).
  split; [ exact Hget | ].
  destruct (null_options_abort_the_run w Demo.listing_args _ _
              Lab.no_options Hget) as (_ & Hexit & Hout).
  - right. now left.
  - reflexivity.
  - split; [ exact Hexit | ]. apply Hout; reflexivity.
Defined.

Lemma empty_runtime_listing_witness :
  let w := Lab.runtime [] in
  PyStr.strip (Demo.lines []) = EmptyString
  /\ events (script w Demo.listing_args)
     = [Run docker_network_ls None; Stdout "[]"]
  /\ exit_code (script w Demo.listing_args) = 0%Z.
Proof.
  intros w. split; [ reflexivity | ].
  apply (empty_runtime_listing w Demo.listing_args (Demo.lines []));
    reflexivity.
Defined.

Lemma one_inspect_per_listed_network_witness :
  let w := Demo.runtime (Demo.lines ["aaa"; "bbb"]) Demo.accept_all in
  get_docker_networks w = (fst (get_docker_networks w), Ret [Demo.web])
  /\ exists stdout,
       subprocess_run w docker_network_ls None = Succeeded stdout
       /\ fst (get_docker_networks w)
          = runs (docker_network_ls
                    :: map docker_network_inspect (network_ids stdout))
       /\ length [Demo.web] <= length (network_ids stdout).
Proof.
  intros w.
  assert (Hget : get_docker_networks w
                 = (fst (get_docker_networks w), Ret [Demo.web]))
    by (vm_compute; reflexivity).
  split; [ exact Hget | ].
  exact (one_inspect_per_listed_network w _ _ Hget).
Defined.

Lemma file_names_collide_witness :
  bridge_name (entry Demo.api "node-1" "br-bbb"
                 [("netpol.role", "backend"); ("netpol.app", "shop");
                  ("netpol.app_id", "42")])
  <> bridge_name (entry Lab.api_replica "node-1" "br-ccc"
                    [("netpol.app", "shop"); ("netpol.role", "backend")])
  /\ filename (entry Demo.api "node-1" "br-bbb"
                 [("netpol.role", "backend"); ("netpol.app", "shop");
                  ("netpol.app_id", "42")])
     = filename (entry Lab.api_replica "node-1" "br-ccc"
                   [("netpol.app", "shop"); ("netpol.role", "backend")]).
Proof.
  split; [ discriminate | ].
  apply (file_names_collide Demo.api Lab.api_replica "node-1" "node-1" [] []);
    reflexivity.
Defined.

Lemma every_network_is_accounted_for_witness :
  let w := Demo.runtime (Demo.lines ["aaa"; "ccc"; "eee"]) Demo.reject_all in
  let networks := [Demo.web; Demo.db; Demo.api] in
  let t := fst (for_networks w Demo.apply_args networks initial_state) in
  let st := {| heps := derived "node-1" networks;
               applied_count := 0; failed_count := 2 |} in
  for_networks w Demo.apply_args networks initial_state = (t, Ret st)
  /\ length (heps st) + length (filter is_warning t) = length networks.
Proof.
  intros w networks t st.
  assert (Hloop : for_networks w Demo.apply_args networks initial_state
                  = (t, Ret st)) by (vm_compute; reflexivity).
  split; [ exact Hloop | ].
  exact (proj1 (every_network_is_accounted_for w Demo.apply_args networks
                  t st Hloop)).
Defined.

Lemma listing_with_output_dir_witness :
  let w := Lab.runtime [("aaa", Demo.web); ("ccc", Demo.db)] in
  get_docker_networks w
    = (fst (get_docker_networks w), Ret [Demo.web; Demo.db])
  /\ stdout_of (events (script w Lab.files_args)) =
       (map (written "/srv/heps") (derived "node-1" [Demo.web; Demo.db])
          ++ [Json.dumps 2
                (JArr (map hep_data_json
                         (derived "node-1" [Demo.web; Demo.db])))])%list.
Proof.
  intros w.
  assert (Hget : get_docker_networks w
                 = (fst (get_docker_networks w), Ret [Demo.web; Demo.db]))
    by (vm_compute; reflexivity).
  split; [ exact Hget | ].
  refine (proj1 (listing_with_output_dir w Lab.files_args
                   (fst (get_docker_networks w)) [Demo.web; Demo.db]
                   "/srv/heps" eq_refl eq_refl _ Hget _ _)).
  - discriminate.
  - repeat constructor; discriminate.
  - apply lab_files_writable.
Defined.

Lemma apply_block_names_the_bridge_witness :
  let w := Demo.runtime (Demo.lines ["aaa"]) Demo.reject_all in
  let h := entry Demo.web "node-1" "br-aaa" [("netpol.app", "web")] in
  generate_hep_manifest Demo.web (node_name Demo.apply_args)
    = ([], Ret (Some h))
  /\ subscript (manifest h) ["metadata"; "name"] = ([], Ret (JStr "br-aaa")).
Proof.
  intros w h. split; [ reflexivity | ].
  exact (proj1 (apply_block_names_the_bridge w Demo.apply_args Demo.web [] h
                  initial_state eq_refl)).
Defined.

Lemma dry_run_alone_changes_nothing_witness :
  let w := Demo.runtime (Demo.lines ["aaa"; "ccc"]) Demo.reject_all in
  apply Demo.listing_args = false
  /\ script w (with_dry_run Demo.listing_args true)
     = script w Demo.listing_args.
Proof.
  intros w. split; [ reflexivity | ].
  apply (dry_run_alone_changes_nothing w Demo.listing_args true).
  reflexivity.
Defined.
